(** * garak/generators/ggml.py: the GgmlGenerator adapter

    A shallow embedding of [GgmlGenerator] (construction-time validation,
    [command_params], and [_call_model]) together with the few pieces of the
    Python runtime it relies on: [str] values as sequences of code points,
    [bytes.decode("utf-8")], [str.lstrip], [str()] on the attribute values,
    and [re.sub("^" + re.escape(p), "", s)]. *)

From Stdlib Require Import ZArith NArith Bool List String Ascii Lia.
From Stdlib Require Import DecimalString Floats.
From Stdlib.Strings Require Import Byte.
Import ListNotations.

Set Warnings "-inexact-float".
Set Implicit Arguments.

(* ===================================================================== *)
(** ** Python values: [str], [bytes], [None], numbers *)
(* ===================================================================== *)

Module Py.

(** A Python [str] is a sequence of Unicode code points. *)
Definition str := list N.

(** A Python [bytes] object. *)
Definition bytes := list byte.

(** An ASCII literal of the source, as a [str]. *)
Definition lit (s : string) : str :=
  map N_of_ascii (list_ascii_of_string s).

(** The ASCII text [s] as the [bytes] a process would write. *)
Definition blit (s : string) : bytes := list_byte_of_string s.

Definition str_eqb (a b : str) : bool :=
  if list_eq_dec N.eq_dec a b then true else false.

(** *** [bytes.decode("utf-8")]

    The strict decoder: shortest-form sequences only, no surrogates,
    nothing above U+10FFFF, no truncated sequence. [None] stands for the
    decoder raising [UnicodeDecodeError]. *)

Definition is_cont (c : N) : bool := ((0x80 <=? c) && (c <=? 0xBF))%N.

Definition in_range (lo hi c : N) : bool := ((lo <=? c) && (c <=? hi))%N.

(** Allowed range of the second byte, by lead byte (three-byte forms). *)
Definition second3_ok (c0 c1 : N) : bool :=
  if (c0 =? 0xE0)%N then in_range 0xA0 0xBF c1
  else if (c0 =? 0xED)%N then in_range 0x80 0x9F c1
  else is_cont c1.

(** Allowed range of the second byte, by lead byte (four-byte forms). *)
Definition second4_ok (c0 c1 : N) : bool :=
  if (c0 =? 0xF0)%N then in_range 0x90 0xBF c1
  else if (c0 =? 0xF4)%N then in_range 0x80 0x8F c1
  else is_cont c1.

Definition cons_cp (c : N) (r : option str) : option str :=
  match r with Some s => Some (c :: s) | None => None end.

Fixpoint decode_utf8 (bs : bytes) : option str :=
  match bs with
  | [] => Some []
  | b0 :: t0 =>
    let c0 := Byte.to_N b0 in
    if (c0 <? 0x80)%N then cons_cp c0 (decode_utf8 t0)
    else if (c0 <? 0xC2)%N then None
    else if (c0 <? 0xE0)%N then
      match t0 with
      | b1 :: t1 =>
        let c1 := Byte.to_N b1 in
        if is_cont c1
        then cons_cp ((c0 - 0xC0) * 0x40 + (c1 - 0x80))%N (decode_utf8 t1)
        else None
      | _ => None
      end
    else if (c0 <? 0xF0)%N then
      match t0 with
      | b1 :: b2 :: t2 =>
        let c1 := Byte.to_N b1 in
        let c2 := Byte.to_N b2 in
        if second3_ok c0 c1 && is_cont c2
        then cons_cp ((c0 - 0xE0) * 0x1000 + (c1 - 0x80) * 0x40
                      + (c2 - 0x80))%N (decode_utf8 t2)
        else None
      | _ => None
      end
    else if (c0 <? 0xF5)%N then
      match t0 with
      | b1 :: b2 :: b3 :: t3 =>
        let c1 := Byte.to_N b1 in
        let c2 := Byte.to_N b2 in
        let c3 := Byte.to_N b3 in
        if second4_ok c0 c1 && is_cont c2 && is_cont c3
        then cons_cp ((c0 - 0xF0) * 0x40000 + (c1 - 0x80) * 0x1000
                      + (c2 - 0x80) * 0x40 + (c3 - 0x80))%N (decode_utf8 t3)
        else None
      | _ => None
      end
    else None
  end.

(** *** [str.lstrip()]

    With no argument [lstrip] removes the leading characters for which
    [str.isspace] holds: the code points of bidirectional class WS, B or S
    and of category Zs. *)

Definition isspace (c : N) : bool :=
  in_range 0x09 0x0D c || in_range 0x1C 0x20 c
  || (c =? 0x85)%N || (c =? 0xA0)%N || (c =? 0x1680)%N
  || in_range 0x2000 0x200A c || (c =? 0x2028)%N || (c =? 0x2029)%N
  || (c =? 0x202F)%N || (c =? 0x205F)%N || (c =? 0x3000)%N.

Fixpoint lstrip (s : str) : str :=
  match s with
  | c :: t => if isspace c then lstrip t else s
  | [] => []
  end.

(** *** [re.sub("^" + re.escape(p), "", s)]

    [re.escape] makes the pattern match [p] literally and [^] (no
    MULTILINE flag) anchors it at offset 0, so the substitution has at
    most one match: the occurrence of [p] at the start of [s]. [strip_at]
    returns what is left of [s] after a leading [p], when there is one. *)

Fixpoint strip_at (p s : str) : option str :=
  match p, s with
  | [], _ => Some s
  | a :: p', b :: s' => if (a =? b)%N then strip_at p' s' else None
  | _ :: _, [] => None
  end.

Definition re_sub_anchored_escape (p s : str) : str :=
  match strip_at p s with
  | Some rest => rest
  | None => s
  end.

(** *** Attribute values and [str(value)] *)

Inductive value :=
| VNone
| VStr (s : str)
| VInt (z : Z)
| VFloat (f : float).

Definition is_None (v : value) : bool :=
  match v with VNone => true | _ => false end.

Definition str_of_int (z : Z) : str :=
  lit (NilZero.string_of_int (Z.to_int z)).

End Py.

Import Py.

(* ===================================================================== *)
(** ** Exceptions, observable effects, and the effect monad *)
(* ===================================================================== *)

(** The exception classes the module raises or catches. All of them derive
    from [Exception]. *)
Inductive exn :=
| RuntimeError (msg : str)
| FileNotFoundError (msg : str)
| CalledProcessError (returncode : Z) (cmd : list str) (out err : bytes)
| UnicodeDecodeError (input : bytes)
| OSError (msg : str)
| ValueError (msg : str).

Definition is_CalledProcessError (e : exn) : bool :=
  match e with CalledProcessError _ _ _ _ => true | _ => false end.

(** What the module does to the outside world, in order. *)
Inductive event :=
| Getenv (var : str)                       (* os.getenv(var) *)
| IsFile (path : str)                      (* os.path.isfile(path) *)
| Open (path : str)                        (* open(path, 'rb') *)
| Read (requested : nat) (got : bytes)     (* file.read(requested) *)
| Close (path : str)                       (* leaving the with block *)
| Spawn (cmd : list str) (check : bool)    (* subprocess.run(cmd, ...) *)
| Print (text : str)                       (* print(text) *)
| PrintCommand (cmd : list str)            (* print("GGML invoked with", cmd) *)
| LogError (text : str)                    (* logging.error(text) *)
| LogErrorExn (e : exn).                   (* logging.error(err) *)

(** The constructor's first step: reading the environment variable. *)
Definition asked_env : event := Getenv (lit "GGML_MAIN_PATH").

Definition is_Spawn (ev : event) : bool :=
  match ev with Spawn _ _ => true | _ => false end.

Definition is_Read (ev : event) : bool :=
  match ev with Read _ _ => true | _ => false end.

Definition is_log (ev : event) : bool :=
  match ev with LogError _ | LogErrorExn _ => true | _ => false end.

(** Computations over a state [St] that either return or raise; the state
    reached when an exception is raised is kept, as Python keeps the
    mutations made before a [raise]. *)
Section Effects.
Variable St : Type.

Definition M (A : Type) : Type := St -> (exn + A) * St.

Definition ret {A} (a : A) : M A := fun s => (inr a, s).

Definition raise {A} (e : exn) : M A := fun s => (inl e, s).

Definition bind {A B} (m : M A) (k : A -> M B) : M B :=
  fun s =>
    match m s with
    | (inr a, s') => k a s'
    | (inl e, s') => (inl e, s')
    end.

(** [try: body  except ... as err: handler err] *)
Definition try_except {A} (body : M A) (handler : exn -> M A) : M A :=
  fun s =>
    match body s with
    | (inr a, s') => (inr a, s')
    | (inl e, s') => handler e s'
    end.

Definition gets {A} (f : St -> A) : M A := fun s => (inr (f s), s).

Definition modify (f : St -> St) : M unit := fun s => (inr tt, f s).
End Effects.

Arguments ret {St A} a.
Arguments raise {St A} e.
Arguments bind {St A B} m k.
Arguments try_except {St A} body handler.
Arguments gets {St A} f.
Arguments modify {St} f.

Declare Scope py_scope.
Delimit Scope py_scope with py.
Notation "x <- c1 ;; c2" := (bind c1 (fun x => c2))
  (at level 61, c1 at next level, right associativity) : py_scope.
Notation "c1 ;; c2" := (bind c1 (fun _ => c2))
  (at level 61, right associativity) : py_scope.
Open Scope py_scope.

(* ===================================================================== *)
(** ** The adapter object and its collaborators *)
(* ===================================================================== *)

Definition GGUF_MAGIC : bytes := [x47; x47; x55; x46].

Definition bytes_eqb (a b : bytes) : bool :=
  if list_eq_dec Byte.byte_eq_dec a b then true else false.

(** An instance of [GgmlGenerator]: the class attributes, and the attributes
    set by the constructors. *)
Record GgmlGenerator := {
  path_to_ggml_main : str;
  name : value;
  generations : Z;
  max_tokens : value;
  repeat_penalty : value;
  presence_penalty : value;
  frequency_penalty : value;
  top_k : value;
  top_p : value;
  temperature : value;
  seed : value;
  exception_on_failure : bool;
  first_call : bool
}.

Definition set_first_call (b : bool) (g : GgmlGenerator) : GgmlGenerator :=
  {| path_to_ggml_main := path_to_ggml_main g;
     name := name g;
     generations := generations g;
     max_tokens := max_tokens g;
     repeat_penalty := repeat_penalty g;
     presence_penalty := presence_penalty g;
     frequency_penalty := frequency_penalty g;
     top_k := top_k g;
     top_p := top_p g;
     temperature := temperature g;
     seed := seed g;
     exception_on_failure := exception_on_failure g;
     first_call := b |}.

(** What the process environment and the rest of the package supply. *)
Record Env := {
  (** [os.getenv("GGML_MAIN_PATH")] *)
  GGML_MAIN_PATH : option str;
  (** The regular files: [os.path.isfile p] holds when [files p] is some
      contents, which are what [open(p, 'rb')] reads. *)
  files : str -> option bytes;
  (** [_config.run.seed] *)
  run_seed : option Z;
  (** [_config.system.verbose] *)
  system_verbose : Z;
  (** [Generator.max_tokens], the class attribute of the base class. *)
  Generator_max_tokens : value
}.

Definition isfile (env : Env) (p : str) : bool :=
  match files env p with Some _ => true | None => false end.

(** An open binary file: its contents and the read position. *)
Record file := { f_data : bytes; f_pos : nat }.

(** [f.read(n)]: at most [n] bytes from the read position, which advances
    by what was read. *)
Definition file_read (n : nat) (f : file) : bytes * file :=
  let got := firstn n (skipn (f_pos f) (f_data f)) in
  (got, {| f_data := f_data f; f_pos := f_pos f + List.length got |}).

(** What the external process did, as [subprocess.run] sees it. *)
Inductive run_outcome :=
| Exited (returncode : Z) (out err : bytes)   (* ran and exited *)
| SpawnFailed (e : exn).                      (* run() itself raised *)

Record CompletedProcess := {
  returncode : Z;
  stdout : bytes;
  stderr : bytes
}.

(* ===================================================================== *)
(** ** The class GgmlGenerator *)
(* ===================================================================== *)

Section GgmlGeneratorClass.

(** [str(x)] for a float [x] (the interpreter's shortest round-trip
    rendering), which the module uses but does not define. *)
Variable repr_float : float -> str.

Variable env : Env.

(** [str(v)] *)
Definition py_str (v : value) : str :=
  match v with
  | VNone => lit "None"
  | VStr s => s
  | VInt z => str_of_int z
  | VFloat f => repr_float f
  end.

(** Effects of a method: the object it runs on and the trace so far. *)
Definition Eff (Obj A : Type) : Type := M (Obj * list event) A.

Definition emit {Obj} (ev : event) : Eff Obj unit :=
  modify (fun s => (fst s, snd s ++ [ev])).

Definition get_self {Obj} : Eff Obj Obj := gets fst.

(** [os.getenv(var)], for the one variable the module reads. *)
Definition os_getenv {Obj} (var : str) : Eff Obj (option str) :=
  emit (Getenv var) ;; ret (GGML_MAIN_PATH env).

(** [os.path.isfile(p)] *)
Definition os_path_isfile {Obj} (p : str) : Eff Obj bool :=
  emit (IsFile p) ;; ret (isfile env p).

(** [with open(p, 'rb') as f: body f]: the file is closed on the way out,
    also when [body] raises. *)
Definition with_open_rb {Obj A} (p : str) (body : file -> Eff Obj A)
  : Eff Obj A :=
  match files env p with
  | None => raise (FileNotFoundError p)
  | Some data =>
    emit (Open p) ;;
    fun s =>
      let (r, s') := body {| f_data := data; f_pos := 0 |} s in
      (r, (fst s', snd s' ++ [Close p]))
  end.

(** [f.read(n)] on the open file [f]. *)
Definition read {Obj} (n : nat) (f : file) : Eff Obj (bytes * file) :=
  let r := file_read n f in
  emit (Read n (fst r)) ;; ret r.

(** Modelled from the spec: the base class [Generator]
    (garak/generators/base.py) is not among the sources. Its constructor
    is taken to record the model path as [name] and the generations
    count, to leave the sampling attributes at the class defaults of
    [GgmlGenerator], and to leave [max_tokens] at the base class's value.
    [path] and [seed] are the attributes [GgmlGenerator.__init__] has
    already set on the instance. *)
Definition Generator_init (path : str) (seed : value)
           (name : str) (generations : Z) : GgmlGenerator :=
  {| path_to_ggml_main := path;
     name := VStr name;
     generations := generations;
     max_tokens := Generator_max_tokens env;
     repeat_penalty := VFloat 1.1;
     presence_penalty := VFloat 0.0;
     frequency_penalty := VFloat 0.0;
     top_k := VInt 40;
     top_p := VFloat 0.95;
     temperature := VFloat 0.8;
     seed := seed;
     exception_on_failure := true;
     first_call := true |}.

(** [GgmlGenerator.__init__(self, name, generations=10)]. The result is
    the constructed instance; a raise leaves no instance behind. *)
Definition __init__ (name : str) (generations : Z)
  : Eff unit GgmlGenerator :=
  path_to_ggml_main <- os_getenv (lit "GGML_MAIN_PATH") ;;
  match path_to_ggml_main with
  | None =>
    raise (RuntimeError
             (lit "Executable not provided by environment GGML_MAIN_PATH"))
  | Some path_to_ggml_main =>
    exe_is_file <- os_path_isfile path_to_ggml_main ;;
    if negb exe_is_file then
      raise (FileNotFoundError
               (lit "Path provided is not a file: " ++ path_to_ggml_main))
    else
      let seed :=
          match run_seed env with Some s => VInt s | None => VInt 0 end in
      model_is_file <- os_path_isfile name ;;
      if negb model_is_file then
        raise (FileNotFoundError
                 (lit "File not found, unable to load model: " ++ name))
      else
        with_open_rb name (fun model_file =>
          r <- read (List.length GGUF_MAGIC) model_file ;;
          let magic_num := fst r in
          if negb (bytes_eqb magic_num GGUF_MAGIC) then
            raise (RuntimeError (name ++ lit " is not in GGUF format"))
          else ret tt) ;;
        ret (Generator_init path_to_ggml_main seed name generations)
  end.

(** Constructing an instance from scratch: the outcome and the trace. *)
Definition construct (name : str) (generations : Z)
  : (exn + GgmlGenerator) * list event :=
  let (r, s) := __init__ name generations (tt, []) in (r, snd s).

(** [GgmlGenerator.command_params(self)]: a dict, which keeps the order
    of insertion. *)
Definition command_params (self : GgmlGenerator) : list (str * value) :=
  [ (lit "-m", name self);
    (lit "-n", max_tokens self);
    (lit "--repeat-penalty", repeat_penalty self);
    (lit "--presence-penalty", presence_penalty self);
    (lit "--frequency-penalty", frequency_penalty self);
    (lit "--top-k", top_k self);
    (lit "--top-p", top_p self);
    (lit "--temp", temperature self);
    (lit "-s", seed self) ].

(** The argument vector [_call_model] builds before it runs anything. *)
Definition build_command (self : GgmlGenerator) (prompt : str) : list str :=
  let command :=
      [VStr (path_to_ggml_main self); VStr (lit "-p"); VStr prompt] in
  let command :=
      fold_left
        (fun command kv =>
           let key := fst kv in
           let value := snd kv in
           if negb (is_None value)
           then (command ++ [VStr key]) ++ [value]
           else command)
        (command_params self) command in
  map py_str command.

(** [subprocess.run(command, stdout=PIPE, stderr=PIPE, check=check)],
    the process answering with [answer]. *)
Definition subprocess_run (answer : list str -> run_outcome)
           (command : list str) (check : bool)
  : Eff GgmlGenerator CompletedProcess :=
  emit (Spawn command check) ;;
  match answer command with
  | SpawnFailed e => raise e
  | Exited rc out err =>
    if check && negb (rc =? 0)%Z
    then raise (CalledProcessError rc command out err)
    else ret {| returncode := rc; stdout := out; stderr := err |}
  end.

(** [b.decode("utf-8")] *)
Definition decode {Obj} (b : bytes) : Eff Obj str :=
  match decode_utf8 b with
  | Some s => ret s
  | None => raise (UnicodeDecodeError b)
  end.

(** [GgmlGenerator._call_model(self, prompt)]. The returned [None] is
    Python's. *)
Definition _call_model (answer : list str -> run_outcome) (prompt : str)
  : Eff GgmlGenerator (option str) :=
  self <- get_self ;;
  let command := build_command self prompt in
  (if (system_verbose env >? 1)%Z then emit (PrintCommand command)
   else ret tt) ;;
  try_except
    (self <- get_self ;;
     result <- subprocess_run answer command (exception_on_failure self) ;;
     output <- decode (stdout result) ;;
     let output :=
         re_sub_anchored_escape (lstrip prompt) (lstrip output) in
     modify (fun s => (set_first_call false (fst s), snd s)) ;;
     ret (Some output))
    (fun err =>
       match err with
       | CalledProcessError _ _ _ err_stderr =>
         text <- decode err_stderr ;;
         emit (Print text) ;;
         text <- decode err_stderr ;;
         emit (LogError text) ;;
         self <- get_self ;;
         if first_call self then raise err else ret None
       | _ =>
         emit (LogErrorExn err) ;;
         ret None
       end).

(** One call on the instance [self], from an empty trace: what the call
    returns or raises, the instance afterwards, and the trace. *)
Definition call (self : GgmlGenerator) (answer : list str -> run_outcome)
           (prompt : str)
  : (exn + option str) * (GgmlGenerator * list event) :=
  _call_model answer prompt (self, []).

(** The instance after a series of calls, whatever each returned or
    raised. *)
Fixpoint after_calls (calls : list ((list str -> run_outcome) * str))
         (self : GgmlGenerator) : GgmlGenerator :=
  match calls with
  | [] => self
  | (answer, prompt) :: rest =>
    after_calls rest (fst (snd (call self answer prompt)))
  end.

End GgmlGeneratorClass.

(* ===================================================================== *)
(** ** The argument vector, as the command protocol words it *)
(* ===================================================================== *)

Section Protocol.

Variable repr_float : float -> str.

(** A parameter on the command line: its flag and its value as text, or
    nothing at all when the value is [None]. *)
Definition flag_with (flag : string) (v : value) : list str :=
  if is_None v then [] else [lit flag; py_str repr_float v].

(** [<executable> -p <prompt> [-m <model>] [-n <maxTokens>]
    [--repeat-penalty <f>] [--presence-penalty <f>]
    [--frequency-penalty <f>] [--top-k <i>] [--top-p <f>] [--temp <f>]
    [-s <seed>]] *)
Definition protocol_argv (self : GgmlGenerator) (prompt : str) : list str :=
  path_to_ggml_main self :: lit "-p" :: prompt
    :: flag_with "-m" (name self)
    ++ flag_with "-n" (max_tokens self)
    ++ flag_with "--repeat-penalty" (repeat_penalty self)
    ++ flag_with "--presence-penalty" (presence_penalty self)
    ++ flag_with "--frequency-penalty" (frequency_penalty self)
    ++ flag_with "--top-k" (top_k self)
    ++ flag_with "--top-p" (top_p self)
    ++ flag_with "--temp" (temperature self)
    ++ flag_with "-s" (seed self).

End Protocol.

(* ===================================================================== *)
(** ** Observing calls and traces *)
(* ===================================================================== *)

Definition is_Open (ev : event) : bool :=
  match ev with Open _ => true | _ => false end.

Definition is_Close (ev : event) : bool :=
  match ev with Close _ => true | _ => false end.

(** A call came back with text (rather than [None] or an exception). *)
Definition returned_text {St} (r : (exn + option str) * St) : bool :=
  match fst r with inr (Some _) => true | _ => false end.

(** The parameters of [command_params] whose value is not [None]. *)
Definition set_params (self : GgmlGenerator) : list (str * value) :=
  filter (fun kv => negb (is_None (snd kv))) (command_params self).

(** The ways a call can end, given what the process answered ([reply]) and
    the trace up to the start of the process ([T0]). *)
Inductive call_outcome (self : GgmlGenerator) (prompt : str)
          (reply : run_outcome) (T0 : list event)
  : (exn + option str) * (GgmlGenerator * list event) -> Prop :=
| Returned rc out err text :
    reply = Exited rc out err ->
    exception_on_failure self && negb (rc =? 0)%Z = false ->
    decode_utf8 out = Some text ->
    call_outcome self prompt reply T0
      (inr (Some (re_sub_anchored_escape (lstrip prompt) (lstrip text))),
       (set_first_call false self, T0))
| Garbled rc out err :
    reply = Exited rc out err ->
    exception_on_failure self && negb (rc =? 0)%Z = false ->
    decode_utf8 out = None ->
    call_outcome self prompt reply T0
      (inr None, (self, T0 ++ [LogErrorExn (UnicodeDecodeError out)]))
| Swallowed e :
    reply = SpawnFailed e ->
    is_CalledProcessError e = false ->
    call_outcome self prompt reply T0
      (inr None, (self, T0 ++ [LogErrorExn e]))
| Escalated rc cmd out err text :
    first_call self = true ->
    decode_utf8 err = Some text ->
    call_outcome self prompt reply T0
      (inl (CalledProcessError rc cmd out err),
       (self, T0 ++ [Print text; LogError text]))
| Recovered err text :
    first_call self = false ->
    decode_utf8 err = Some text ->
    call_outcome self prompt reply T0
      (inr None, (self, T0 ++ [Print text; LogError text]))
| Unreadable err :
    decode_utf8 err = None ->
    call_outcome self prompt reply T0
      (inl (UnicodeDecodeError err), (self, T0)).

Section Lifetime.

Variable repr_float : float -> str.
Variable env : Env.

(** How many calls of a series came back with text. *)
Fixpoint texts_returned (calls : list ((list str -> run_outcome) * str))
         (self : GgmlGenerator) : nat :=
  match calls with
  | [] => 0
  | (answer, prompt) :: rest =>
    let r := call repr_float env self answer prompt in
    (if returned_text r then 1 else 0)
    + texts_returned rest (fst (snd r))
  end.

End Lifetime.

(* ===================================================================== *)
(** ** A small installation to run the model on *)
(* ===================================================================== *)

Definition set_exception_on_failure (b : bool) (g : GgmlGenerator)
  : GgmlGenerator :=
  {| path_to_ggml_main := path_to_ggml_main g;
     name := name g;
     generations := generations g;
     max_tokens := max_tokens g;
     repeat_penalty := repeat_penalty g;
     presence_penalty := presence_penalty g;
     frequency_penalty := frequency_penalty g;
     top_k := top_k g;
     top_p := top_p g;
     temperature := temperature g;
     seed := seed g;
     exception_on_failure := b;
     first_call := first_call g |}.

Module Sample.

(** A rendering of floats that agrees with the interpreter's on the
    floats that occur as class attributes, the only ones the samples
    use; it is not meant for any other float. *)
Definition repr_float (f : float) : str :=
  if (f =? 1.1)%float then lit "1.1"
  else if (f =? 0.95)%float then lit "0.95"
  else if (f =? 0.8)%float then lit "0.8"
  else if (f =? 0.0)%float then lit "0.0"
  else lit "nan".

Definition exe : str := lit "/opt/llama.cpp/main".
Definition model : str := lit "models/7b.gguf".
Definition stub : str := lit "models/stub.bin".
Definition absent : str := lit "models/absent.gguf".

Definition disk (p : str) : option bytes :=
  if str_eqb p exe then Some [x7f; x45; x4c; x46]
  else if str_eqb p model then Some (GGUF_MAGIC ++ [x03; x00; x00; x00])
  else if str_eqb p stub then Some [x47; x47]
  else None.

(** An installation with the executable configured and no run seed. *)
Definition env : Env :=
  {| GGML_MAIN_PATH := Some exe;
     files := disk;
     run_seed := None;
     system_verbose := 0;
     Generator_max_tokens := VInt 50 |}.

(** The same, with the run seed set. *)
Definition env_seeded : Env :=
  {| GGML_MAIN_PATH := Some exe;
     files := disk;
     run_seed := Some 1234%Z;
     system_verbose := 0;
     Generator_max_tokens := VInt 50 |}.

(** The same, with the run seed set to -1. *)
Definition env_negative : Env :=
  {| GGML_MAIN_PATH := Some exe;
     files := disk;
     run_seed := Some (-1)%Z;
     system_verbose := 0;
     Generator_max_tokens := VInt 50 |}.

(** The same, without the environment variable. *)
Definition env_unset : Env :=
  {| GGML_MAIN_PATH := None;
     files := disk;
     run_seed := None;
     system_verbose := 0;
     Generator_max_tokens := VInt 50 |}.

(** The same, with the variable naming a file that is not there. *)
Definition env_misplaced : Env :=
  {| GGML_MAIN_PATH := Some absent;
     files := disk;
     run_seed := None;
     system_verbose := 0;
     Generator_max_tokens := VInt 50 |}.

(** A freshly constructed instance, and one that has completed a call. *)
Definition fresh : GgmlGenerator := Generator_init env exe (VInt 0) model 10.
Definition used : GgmlGenerator := set_first_call false fresh.

(** The instance constructed when the run-level seed is 1234. *)
Definition seeded : GgmlGenerator :=
  Generator_init env_seeded exe (VInt 1234) model 10.

(** The instance constructed when the run-level seed is -1. *)
Definition negative : GgmlGenerator :=
  Generator_init env_negative exe (VInt (-1)) model 10.

(** An instance configured not to raise on a failing exit code. *)
Definition lenient : GgmlGenerator := set_exception_on_failure false fresh.

Definition hello : str := lit "Hello".

(** The process echoes the prompt and continues it. *)
Definition echoes (_ : list str) : run_outcome :=
  Exited 0 (blit "Hello world") [].

(** The process fails after writing part of an answer. *)
Definition fails (_ : list str) : run_outcome :=
  Exited 1 (blit "Hel") (blit "error: unable to load model").

(** The process succeeds and writes bytes that are not UTF-8. *)
Definition garbles (_ : list str) : run_outcome :=
  Exited 0 [xff; xfe] [].

(** The process cannot be started. *)
Definition unstartable (_ : list str) : run_outcome :=
  SpawnFailed (OSError (lit "[Errno 8] Exec format error")).

Definition failure_text : bytes := blit "error: unable to load model".

(** The process fails and writes a stderr that is not UTF-8. *)
Definition croaks (_ : list str) : run_outcome :=
  Exited 1 [] [xc3; x28].

(** The process writes its answer after a space, without an echo. *)
Definition answers (_ : list str) : run_outcome :=
  Exited 0 (blit " 42") [].

(** The argument vector of an instance for the prompt "Hello", and a call
    with that prompt on the sample installation. *)
Definition argv (self : GgmlGenerator) : list str :=
  build_command repr_float self hello.

Definition run (self : GgmlGenerator) (answer : list str -> run_outcome)
  : (exn + option str) * (GgmlGenerator * list event) :=
  call repr_float env self answer hello.

End Sample.

(* ===================================================================== *)
(** ** How one call runs, case by case *)
(* ===================================================================== *)

Section CallCases.

Variable repr_float : float -> str.
Variable env : Env.

(** What a call prints before it runs the process. *)
Definition announce (self : GgmlGenerator) (prompt : str) : list event :=
  if (system_verbose env >? 1)%Z
  then [PrintCommand (build_command repr_float self prompt)]
  else [].

(** The trace of a call up to and including the start of the process. *)
Definition started (self : GgmlGenerator) (prompt : str) : list event :=
  announce self prompt
    ++ [Spawn (build_command repr_float self prompt) (exception_on_failure self)].

Ltac run_effects :=
  unfold call, _call_model, subprocess_run, decode, emit,
    get_self, started, announce, bind, try_except, gets, modify, ret, raise;
  cbn [fst snd app].

Ltac by_verbosity :=
  destruct (system_verbose env >? 1)%Z; cbn [fst snd app].

(** [subprocess.run] itself raised something other than
    [CalledProcessError]: the generic handler logs it. *)
Lemma call_spawn_failed self answer prompt e :
  answer (build_command repr_float self prompt) = SpawnFailed e ->
  is_CalledProcessError e = false ->
  call repr_float env self answer prompt
  = (inr None, (self, started self prompt ++ [LogErrorExn e])).
Proof.
  intros Hans Hcls. run_effects.
  by_verbosity; rewrite Hans; cbn [fst snd app];
    destruct e; try discriminate Hcls; reflexivity.
Qed.

(** A checked run that exits non-zero, with a readable stderr. *)
Lemma call_checked_nonzero self answer prompt rc out err text :
  answer (build_command repr_float self prompt) = Exited rc out err ->
  rc <> 0%Z ->
  exception_on_failure self = true ->
  decode_utf8 err = Some text ->
  call repr_float env self answer prompt
  = (if first_call self
     then inl (CalledProcessError rc (build_command repr_float self prompt) out err)
     else inr None,
     (self, started self prompt ++ [Print text; LogError text])).
Proof.
  intros Hans Hrc Hchk Hdec. run_effects.
  apply Z.eqb_neq in Hrc.
  by_verbosity; rewrite Hans, Hchk, Hrc; cbn [andb negb fst snd app];
    rewrite Hdec; cbn [fst snd app];
    destruct (first_call self); reflexivity.
Qed.

(** A checked run that exits non-zero, with a stderr that does not
    decode: the decoding error leaves the handler. *)
Lemma call_checked_nonzero_undecodable self answer prompt rc out err :
  answer (build_command repr_float self prompt) = Exited rc out err ->
  rc <> 0%Z ->
  exception_on_failure self = true ->
  decode_utf8 err = None ->
  call repr_float env self answer prompt
  = (inl (UnicodeDecodeError err), (self, started self prompt)).
Proof.
  intros Hans Hrc Hchk Hdec. run_effects.
  apply Z.eqb_neq in Hrc.
  by_verbosity; rewrite Hans, Hchk, Hrc; cbn [andb negb fst snd app];
    rewrite Hdec; reflexivity.
Qed.

(** A run that [subprocess.run] returns from, with a readable stdout. *)
Lemma call_completed self answer prompt rc out err text :
  answer (build_command repr_float self prompt) = Exited rc out err ->
  exception_on_failure self && negb (rc =? 0)%Z = false ->
  decode_utf8 out = Some text ->
  call repr_float env self answer prompt
  = (inr (Some (re_sub_anchored_escape (lstrip prompt) (lstrip text))),
     (set_first_call false self, started self prompt)).
Proof.
  intros Hans Hchk Hdec. run_effects.
  by_verbosity; rewrite Hans, Hchk; cbn [stdout fst snd app];
    rewrite Hdec; reflexivity.
Qed.

(** A run that [subprocess.run] returns from, with a stdout that does
    not decode. *)
Lemma call_completed_undecodable self answer prompt rc out err :
  answer (build_command repr_float self prompt) = Exited rc out err ->
  exception_on_failure self && negb (rc =? 0)%Z = false ->
  decode_utf8 out = None ->
  call repr_float env self answer prompt
  = (inr None,
     (self, started self prompt ++ [LogErrorExn (UnicodeDecodeError out)])).
Proof.
  intros Hans Hchk Hdec. run_effects.
  by_verbosity; rewrite Hans, Hchk; cbn [stdout fst snd app];
    rewrite Hdec; reflexivity.
Qed.

End CallCases.

(* ===================================================================== *)
(** ** Removing the echoed prompt *)
(* ===================================================================== *)

Lemma strip_at_app p rest : strip_at p (p ++ rest) = Some rest.
Proof.
  induction p as [ | a p IH ]; cbn [strip_at app].
  - reflexivity.
  - now rewrite N.eqb_refl.
Qed.

Lemma strip_at_Some p : forall s rest, strip_at p s = Some rest -> s = p ++ rest.
Proof.
  induction p as [ | a p IH ]; intros s rest H; cbn [strip_at] in H.
  - now injection H as ->.
  - destruct s as [ | b s ]; [ discriminate | ].
    destruct (N.eqb_spec a b) as [-> | ]; [ | discriminate ].
    cbn [app]. f_equal. now apply IH.
Qed.

(** The substitution removes the leading occurrence of [p] and nothing
    after it. *)
Lemma re_sub_echo p rest : re_sub_anchored_escape p (p ++ rest) = rest.
Proof. unfold re_sub_anchored_escape. now rewrite strip_at_app. Qed.

(** Without a leading [p] the substitution changes nothing. *)
Lemma re_sub_no_echo p s :
  (forall rest, s <> p ++ rest) -> re_sub_anchored_escape p s = s.
Proof.
  intros Hno. unfold re_sub_anchored_escape.
  destruct (strip_at p s) as [rest | ] eqn:E; [ | reflexivity ].
  apply strip_at_Some in E. now destruct (Hno rest).
Qed.

(* ===================================================================== *)
(** ** The invoker: the first-call flag and the failure policy *)
(* ===================================================================== *)

Section Invoker.

Variable repr_float : float -> str.
Variable env : Env.

(** A call either leaves the instance as it was or clears the flag. *)
Lemma call_keeps_or_clears self answer prompt :
  fst (snd (call repr_float env self answer prompt)) = self
  \/ fst (snd (call repr_float env self answer prompt))
     = set_first_call false self.
Proof.
  unfold call, _call_model, subprocess_run, decode, emit, get_self,
    bind, try_except, gets, modify, ret, raise.
  cbn [fst snd].
  destruct (system_verbose env >? 1)%Z; cbn [fst snd];
    (destruct (answer (build_command repr_float self prompt))
       as [rc out err | e]; cbn [fst snd];
     [ destruct (exception_on_failure self && negb (rc =? 0)%Z);
       cbn [fst snd stdout];
       [ destruct (decode_utf8 err); cbn [fst snd];
         [ destruct (first_call self) | ]
       | destruct (decode_utf8 out); cbn [fst snd] ]
     | destruct e as [ | | rc' cmd' out' err' | | | ]; cbn [fst snd];
       try (left; reflexivity);
       destruct (decode_utf8 err'); cbn [fst snd];
       [ destruct (first_call self) | ] ];
     first [ left; reflexivity | right; reflexivity ]).
Qed.

Lemma first_call_stays_false_once self answer prompt :
  first_call self = false ->
  first_call (fst (snd (call repr_float env self answer prompt))) = false.
Proof.
  intros Hfc.
  destruct (call_keeps_or_clears self answer prompt) as [-> | ->];
    [ exact Hfc | reflexivity ].
Qed.

(** The flag never goes back to true, however many calls follow and
    however each of them ends. *)
Lemma first_call_stays_false calls :
  forall self,
    first_call self = false ->
    first_call (after_calls repr_float env calls self) = false.
Proof.
  induction calls as [ | [answer prompt] rest IH ]; intros self Hfc.
  - exact Hfc.
  - cbn [after_calls]. apply IH.
    now apply first_call_stays_false_once.
Qed.

(** C1, as amended. When the external process exits non-zero and the
    instance raises on failure (the default), the call leaves the
    instance, and with it the first-call flag, exactly as it was: the
    flag is still true when the error propagates from a first call, and
    false as before when a later call recovers. The flag is only ever
    assigned false, so from any instance on which it is false it stays
    false through every later call. *)
Theorem first_call_untouched_by_failed_exit
        self answer prompt rc out err :
  answer (build_command repr_float self prompt) = Exited rc out err ->
  rc <> 0%Z ->
  exception_on_failure self = true ->
  fst (snd (call repr_float env self answer prompt)) = self
  /\ (forall calls g,
         first_call g = false ->
         first_call (after_calls repr_float env calls g) = false).
Proof.
  intros Hans Hrc Hchk. split.
  - destruct (decode_utf8 err) as [text | ] eqn:Hdec.
    + now rewrite (call_checked_nonzero repr_float env self answer prompt
                     Hans Hrc Hchk Hdec).
    + now rewrite (call_checked_nonzero_undecodable repr_float env self
                     answer prompt Hans Hrc Hchk Hdec).
  - intros calls g. apply first_call_stays_false.
Qed.

(** C2, as amended. When the instance raises on failure (the default)
    and the external process exits non-zero with a stderr that decodes
    as UTF-8: on a first call the [CalledProcessError] propagates to the
    caller; on a later call the decoded stderr is logged through
    [logging.error] and the call returns [None]. *)
Theorem failed_exit_raises_first_then_recovers
        self answer prompt rc out err text :
  answer (build_command repr_float self prompt) = Exited rc out err ->
  rc <> 0%Z ->
  exception_on_failure self = true ->
  decode_utf8 err = Some text ->
  (first_call self = true ->
   fst (call repr_float env self answer prompt)
   = inl (CalledProcessError rc (build_command repr_float self prompt)
                             out err))
  /\ (first_call self = false ->
      fst (call repr_float env self answer prompt) = inr None
      /\ snd (snd (call repr_float env self answer prompt))
         = started repr_float env self prompt
             ++ [Print text; LogError text]).
Proof.
  intros Hans Hrc Hchk Hdec.
  rewrite (call_checked_nonzero repr_float env self answer prompt
             Hans Hrc Hchk Hdec).
  split; intros Hfc; rewrite Hfc; cbn [fst snd]; auto.
Qed.

(** C3. On a zero exit code the call returns the stdout, decoded as
    UTF-8 and stripped of leading whitespace, without one leading
    occurrence of the prompt (itself stripped of leading whitespace) when
    it starts with it, and unchanged otherwise. In particular the
    prompt "Hello" answered by "Hello world" yields " world". *)
Theorem zero_exit_returns_stripped_output
        self answer prompt out err text :
  answer (build_command repr_float self prompt) = Exited 0 out err ->
  decode_utf8 out = Some text ->
  (forall rest,
      lstrip text = lstrip prompt ++ rest ->
      fst (call repr_float env self answer prompt) = inr (Some rest))
  /\ ((forall rest, lstrip text <> lstrip prompt ++ rest) ->
      fst (call repr_float env self answer prompt)
      = inr (Some (lstrip text)))
  /\ fst (call repr_float env self
               (fun _ => Exited 0 (blit "Hello world") []) (lit "Hello"))
     = inr (Some (lit " world")).
Proof.
  intros Hans Hdec.
  assert (Hchk : forall rc,
             rc = 0%Z ->
             exception_on_failure self && negb (rc =? 0)%Z = false)
    by (intros rc ->; apply andb_false_r).
  rewrite (call_completed repr_float env self answer prompt
             Hans (Hchk 0%Z eq_refl) Hdec).
  cbn [fst]. repeat split.
  - intros rest ->. now rewrite re_sub_echo.
  - intros Hno. now rewrite re_sub_no_echo.
  - now rewrite (call_completed repr_float env self
                   (fun _ => Exited 0 (blit "Hello world") []) (lit "Hello")
                   (text := lit "Hello world")
                   eq_refl (Hchk 0%Z eq_refl) eq_refl).
Qed.

(** C8. When running the process fails in any way other than a non-zero
    exit (the process could not be started, say), the call logs the
    error and returns [None]; nothing propagates, and the first-call
    flag is neither read nor written: the instance is left as it was,
    and with the flag set either way the call returns and logs the same. *)
Theorem other_failure_is_logged_and_swallowed
        self answer prompt e :
  answer (build_command repr_float self prompt) = SpawnFailed e ->
  is_CalledProcessError e = false ->
  call repr_float env self answer prompt
  = (inr None,
     (self, started repr_float env self prompt ++ [LogErrorExn e]))
  /\ (forall b,
         fst (call repr_float env (set_first_call b self) answer prompt)
         = fst (call repr_float env self answer prompt)
         /\ snd (snd (call repr_float env (set_first_call b self)
                           answer prompt))
            = snd (snd (call repr_float env self answer prompt))
         /\ first_call
              (fst (snd (call repr_float env (set_first_call b self)
                              answer prompt))) = b).
Proof.
  intros Hans Hcls.
  rewrite (call_spawn_failed repr_float env self answer prompt Hans Hcls).
  split; [ reflexivity | intros b ].
  assert (Hans' : answer (build_command repr_float (set_first_call b self)
                                        prompt) = SpawnFailed e)
    by exact Hans.
  rewrite (call_spawn_failed repr_float env (set_first_call b self)
             answer prompt Hans' Hcls).
  repeat split.
Qed.


(** C10. When the process exits with zero and its stdout is not valid
    UTF-8, the call logs the decoding error and returns [None], on a
    first call as on any other, and leaves the instance as it was; so
    an instance that was on its first call still is, and a following
    call that exits non-zero raises. *)
Theorem undecodable_success_is_swallowed
        self answer prompt out err :
  answer (build_command repr_float self prompt) = Exited 0 out err ->
  decode_utf8 out = None ->
  call repr_float env self answer prompt
  = (inr None,
     (self,
      started repr_float env self prompt
        ++ [LogErrorExn (UnicodeDecodeError out)]))
  /\ (forall answer' prompt' rc' out' err' text',
         first_call self = true ->
         exception_on_failure self = true ->
         answer' (build_command repr_float self prompt')
         = Exited rc' out' err' ->
         rc' <> 0%Z ->
         decode_utf8 err' = Some text' ->
         fst (call repr_float env
                   (fst (snd (call repr_float env self answer prompt)))
                   answer' prompt')
         = inl (CalledProcessError
                  rc' (build_command repr_float self prompt') out' err')).
Proof.
  intros Hans Hdec.
  assert (Hchk : exception_on_failure self && negb (0 =? 0)%Z = false)
    by apply andb_false_r.
  rewrite (call_completed_undecodable repr_float env self answer prompt
             Hans Hchk Hdec).
  split; [ reflexivity | ].
  intros answer' prompt' rc' out' err' text' Hfc Hraise Hans' Hrc' Hdec'.
  cbn [fst snd].
  rewrite (call_checked_nonzero repr_float env self answer' prompt'
             Hans' Hrc' Hraise Hdec').
  now rewrite Hfc.
Qed.

End Invoker.

(* ===================================================================== *)
(** ** The command builder *)
(* ===================================================================== *)

Section CommandBuilder.

Variable repr_float : float -> str.

(** The loop over [command_params().items()] appends, for each entry in
    turn, the key and the value unless the value is [None]. *)
Lemma append_params_flat_map (params : list (str * value)) :
  forall command : list value,
    fold_left
      (fun command kv =>
         let key := fst kv in
         let value := snd kv in
         if negb (is_None value)
         then (command ++ [VStr key]) ++ [value]
         else command)
      params command
    = command
        ++ flat_map (fun kv => if is_None (snd kv) then []
                               else [VStr (fst kv); snd kv]) params.
Proof.
  induction params as [ | [key v] params IH ]; intros command.
  - cbn. now rewrite app_nil_r.
  - cbn [fold_left flat_map fst snd]. rewrite IH.
    destruct (is_None v); cbn [negb app].
    + reflexivity.
    + now rewrite <- !app_assoc.
Qed.

(** Rendering the collected values with [str] afterwards. *)
Lemma render_params (params : list (str * value)) :
  map (py_str repr_float)
      (flat_map (fun kv => if is_None (snd kv) then []
                           else [VStr (fst kv); snd kv]) params)
  = flat_map (fun kv => if is_None (snd kv) then []
                        else [fst kv; py_str repr_float (snd kv)]) params.
Proof.
  induction params as [ | [key v] params IH ]; [ reflexivity | ].
  cbn [flat_map fst snd]. rewrite map_app, IH.
  now destruct (is_None v).
Qed.

(** C4. The argument vector is the executable path, [-p], the prompt as
    it was given, and then, in the order -m, -n, --repeat-penalty,
    --presence-penalty, --frequency-penalty, --top-k, --top-p, --temp,
    -s, the flag and the text of the value of each parameter that is not
    [None]; a parameter that is [None] adds nothing, and the rest of the
    vector is as it would be otherwise. *)
Theorem build_command_follows_protocol self prompt :
  build_command repr_float self prompt
  = protocol_argv repr_float self prompt.
Proof.
  unfold build_command. rewrite append_params_flat_map, map_app.
  rewrite render_params.
  unfold protocol_argv, flag_with, command_params.
  cbn [map py_str flat_map fst snd app].
  now rewrite app_nil_r.
Qed.

End CommandBuilder.

(* ===================================================================== *)
(** ** The validator: what the constructor checks, and in which order *)
(* ===================================================================== *)

Section Validator.

Variable env : Env.

Ltac run_init :=
  unfold construct, __init__, os_getenv, os_path_isfile, with_open_rb, read,
    emit, bind, gets, modify, ret, raise;
  cbn [fst snd app].

Lemma construct_exe_unset name generations :
  GGML_MAIN_PATH env = None ->
  construct env name generations
  = (inl (RuntimeError
            (lit "Executable not provided by environment GGML_MAIN_PATH")),
     [asked_env]).
Proof. intros Hexe. run_init. now rewrite Hexe. Qed.

Lemma construct_exe_not_a_file name generations exe :
  GGML_MAIN_PATH env = Some exe ->
  isfile env exe = false ->
  construct env name generations
  = (inl (FileNotFoundError (lit "Path provided is not a file: " ++ exe)),
     [asked_env; IsFile exe]).
Proof. intros Hexe Hfile. run_init. now rewrite Hexe, Hfile. Qed.

Lemma construct_model_not_a_file name generations exe :
  GGML_MAIN_PATH env = Some exe ->
  isfile env exe = true ->
  isfile env name = false ->
  construct env name generations
  = (inl (FileNotFoundError
            (lit "File not found, unable to load model: " ++ name)),
     [asked_env; IsFile exe; IsFile name]).
Proof.
  intros Hexe Hfile Hmodel. run_init.
  rewrite Hexe; cbn [fst snd app].
  rewrite Hfile; cbn [negb fst snd app].
  now rewrite Hmodel.
Qed.

Lemma isfile_of_contents p data : files env p = Some data -> isfile env p = true.
Proof. unfold isfile. now intros ->. Qed.

(** With both files in place, the outcome is decided by the first four
    bytes of the model file. *)
Lemma construct_reads_magic name generations exe data :
  GGML_MAIN_PATH env = Some exe ->
  isfile env exe = true ->
  files env name = Some data ->
  construct env name generations
  = (if bytes_eqb (firstn 4 data) GGUF_MAGIC
     then inr (Generator_init env exe
                 (match run_seed env with
                  | Some s => VInt s
                  | None => VInt 0
                  end) name generations)
     else inl (RuntimeError (name ++ lit " is not in GGUF format")),
     [asked_env; IsFile exe; IsFile name; Open name;
      Read 4 (firstn 4 data); Close name]).
Proof.
  intros Hexe Hfile Hdata. run_init.
  rewrite Hexe; cbn [fst snd app].
  rewrite Hfile; cbn [negb fst snd app].
  rewrite (isfile_of_contents _ Hdata); cbn [negb fst snd app].
  rewrite Hdata; cbn [fst snd app].
  unfold file_read; cbn [f_data f_pos skipn fst snd List.length GGUF_MAGIC].
  destruct (bytes_eqb (firstn 4 data) GGUF_MAGIC); reflexivity.
Qed.

Lemma short_file_has_no_magic (data : bytes) :
  (List.length data < 4)%nat -> firstn 4 data <> GGUF_MAGIC.
Proof.
  intros Hlen Heq.
  apply (f_equal (@List.length byte)) in Heq.
  rewrite length_firstn in Heq.
  change (List.length GGUF_MAGIC) with 4%nat in Heq. lia.
Qed.

Lemma bytes_eqb_neq (a b : bytes) : a <> b -> bytes_eqb a b = false.
Proof.
  intros Hne. unfold bytes_eqb.
  now destruct (list_eq_dec byte_eq_dec a b).
Qed.

Lemma bytes_eqb_true (a b : bytes) : bytes_eqb a b = true -> a = b.
Proof.
  unfold bytes_eqb.
  now destruct (list_eq_dec byte_eq_dec a b).
Qed.

(** C5. With the executable in place and the model a regular file, a model
    whose first four bytes are not 47 47 55 46 makes the constructor raise
    the not-in-GGUF-format error, whatever the length of the file, a file
    of fewer than four bytes included. The constructor asks the file for
    four bytes, once, and gets the at most four bytes the file starts
    with. *)
Theorem bad_magic_is_rejected name generations exe data :
  GGML_MAIN_PATH env = Some exe ->
  isfile env exe = true ->
  files env name = Some data ->
  (List.length data < 4)%nat \/ firstn 4 data <> GGUF_MAGIC ->
  construct env name generations
  = (inl (RuntimeError (name ++ lit " is not in GGUF format")),
     [asked_env; IsFile exe; IsFile name; Open name;
      Read 4 (firstn 4 data); Close name])
  /\ filter is_Read (snd (construct env name generations))
     = [Read 4 (firstn 4 data)]
  /\ (List.length (firstn 4 data) <= 4)%nat.
Proof.
  intros Hexe Hfile Hdata Hbad.
  assert (Hne : firstn 4 data <> GGUF_MAGIC)
    by (destruct Hbad as [Hshort | Hne];
        [ now apply short_file_has_no_magic | exact Hne ]).
  rewrite (construct_reads_magic name generations Hexe Hfile Hdata).
  rewrite (bytes_eqb_neq Hne). cbn [snd filter is_Read asked_env].
  repeat split.
  rewrite length_firstn. lia.
Qed.

(** The constructor never runs the external process. *)
Lemma construct_spawns_nothing name generations :
  existsb is_Spawn (snd (construct env name generations)) = false.
Proof.
  destruct (GGML_MAIN_PATH env) as [exe | ] eqn:Hexe.
  - destruct (isfile env exe) eqn:Hfile.
    + destruct (files env name) as [data | ] eqn:Hdata.
      * now rewrite (construct_reads_magic name generations Hexe Hfile Hdata).
      * rewrite (construct_model_not_a_file name generations Hexe Hfile);
          [ reflexivity | unfold isfile; now rewrite Hdata ].
    + now rewrite (construct_exe_not_a_file name generations Hexe Hfile).
  - now rewrite (construct_exe_unset name generations Hexe).
Qed.

(** An instance only ever comes out of a configuration that passed every
    check. *)
Lemma construct_inr_valid name generations g trace :
  construct env name generations = (inr g, trace) ->
  exists exe data,
    GGML_MAIN_PATH env = Some exe
    /\ isfile env exe = true
    /\ files env name = Some data
    /\ firstn 4 data = GGUF_MAGIC
    /\ g = Generator_init env exe
             (match run_seed env with Some s => VInt s | None => VInt 0 end)
             name generations.
Proof.
  intros Hok.
  destruct (GGML_MAIN_PATH env) as [exe | ] eqn:Hexe.
  - destruct (isfile env exe) eqn:Hfile.
    + destruct (files env name) as [data | ] eqn:Hdata.
      * rewrite (construct_reads_magic name generations Hexe Hfile Hdata)
          in Hok.
        destruct (bytes_eqb (firstn 4 data) GGUF_MAGIC) eqn:Hmagic;
          [ | discriminate Hok ].
        exists exe, data. injection Hok as <- _.
        repeat split; auto using bytes_eqb_true.
      * rewrite (construct_model_not_a_file name generations Hexe Hfile)
          in Hok; [ discriminate Hok | unfold isfile; now rewrite Hdata ].
    + rewrite (construct_exe_not_a_file name generations Hexe Hfile) in Hok.
      discriminate Hok.
  - rewrite (construct_exe_unset name generations Hexe) in Hok.
    discriminate Hok.
Qed.

(** C6. The constructor raises the executable-not-provided error when the
    environment variable is unset, whatever the files are; otherwise it
    raises FileNotFoundError when the executable path is not a regular
    file, whatever the model is; otherwise it raises FileNotFoundError when
    the model path is not a regular file. In each of these cases it stops
    before opening the model, so before the format check. It never runs
    the external process, and it hands out an instance only for a
    configuration that passes all the checks, the format check included. *)
Theorem construction_checks_in_order model generations :
  (GGML_MAIN_PATH env = None ->
   construct env model generations
   = (inl (RuntimeError
             (lit "Executable not provided by environment GGML_MAIN_PATH")),
      [asked_env]))
  /\ (forall exe,
         GGML_MAIN_PATH env = Some exe ->
         isfile env exe = false ->
         construct env model generations
         = (inl (FileNotFoundError
                   (lit "Path provided is not a file: " ++ exe)),
            [asked_env; IsFile exe]))
  /\ (forall exe,
         GGML_MAIN_PATH env = Some exe ->
         isfile env exe = true ->
         isfile env model = false ->
         construct env model generations
         = (inl (FileNotFoundError
                   (lit "File not found, unable to load model: " ++ model)),
            [asked_env; IsFile exe; IsFile model]))
  /\ existsb is_Spawn (snd (construct env model generations)) = false
  /\ (forall g trace,
         construct env model generations = (inr g, trace) ->
         exists exe data,
           GGML_MAIN_PATH env = Some exe
           /\ isfile env exe = true
           /\ files env model = Some data
           /\ firstn 4 data = GGUF_MAGIC
           /\ path_to_ggml_main g = exe
           /\ name g = VStr model).
Proof.
  split; [ apply construct_exe_unset | ].
  split; [ intros exe; apply construct_exe_not_a_file | ].
  split; [ intros exe; apply construct_model_not_a_file | ].
  split; [ apply construct_spawns_nothing | ].
  intros g trace Hok.
  destruct (construct_inr_valid _ _ Hok)
    as (exe & data & Hexe & Hfile & Hdata & Hmagic & ->).
  exists exe, data. repeat split; assumption.
Qed.

(** C7, as amended. An instance that comes out of the constructor has for
    seed the run-level seed when there is one, whatever its sign, and 0
    when there is none; its seed is never [None]. The default is never -1:
    the seed is -1 exactly when the run-level seed is -1. *)
Theorem constructed_seed_is_resolved name generations g trace :
  construct env name generations = (inr g, trace) ->
  seed g = VInt (match run_seed env with Some s => s | None => 0%Z end)
  /\ (forall s, run_seed env = Some s -> seed g = VInt s)
  /\ (run_seed env = None -> seed g = VInt 0)
  /\ seed g <> VNone
  /\ (seed g = VInt (-1) <-> run_seed env = Some (-1)%Z).
Proof.
  intros Hok.
  destruct (construct_inr_valid _ _ Hok) as (exe & data & _ & _ & _ & _ & ->).
  cbn [seed Generator_init].
  destruct (run_seed env) as [s | ]; repeat split;
    try discriminate; try congruence.
Qed.

End Validator.

(* ===================================================================== *)
(** ** Runs on the sample installation *)
(* ===================================================================== *)

(** The vector for the sample instance and the prompt "Hello". *)
Example sample_argv :
  Sample.argv Sample.fresh
  = map lit [ "/opt/llama.cpp/main"; "-p"; "Hello"; "-m"; "models/7b.gguf";
              "-n"; "50"; "--repeat-penalty"; "1.1";
              "--presence-penalty"; "0.0"; "--frequency-penalty"; "0.0";
              "--top-k"; "40"; "--top-p"; "0.95"; "--temp"; "0.8";
              "-s"; "0" ]%string.
Proof. reflexivity. Qed.

(** C1, as stated, fails: a first call whose process exits with 1 raises
    and leaves the first-call flag true, so that the same call made again
    raises again instead of recovering. *)
Lemma failed_first_call_keeps_flag :
  Sample.fails (Sample.argv Sample.fresh) = Exited 1 (blit "Hel") Sample.failure_text
  /\ first_call Sample.fresh = true
  /\ fst (Sample.run Sample.fresh Sample.fails)
     = inl (CalledProcessError 1 (Sample.argv Sample.fresh) (blit "Hel")
                               Sample.failure_text)
  /\ first_call (fst (snd (Sample.run Sample.fresh Sample.fails))) = true
  /\ fst (Sample.run (fst (snd (Sample.run Sample.fresh Sample.fails))) Sample.fails)
     = inl (CalledProcessError 1 (Sample.argv Sample.fresh) (blit "Hel")
                               Sample.failure_text).
Proof. vm_compute. repeat split. Qed.

Lemma failed_exit_witness :
  (Sample.fails (Sample.argv Sample.used) = Exited 1 (blit "Hel") Sample.failure_text
   /\ 1%Z <> 0%Z
   /\ exception_on_failure Sample.used = true)
  /\ fst (snd (Sample.run Sample.used Sample.fails)) = Sample.used
  /\ first_call (fst (snd (Sample.run Sample.fresh Sample.fails))) = true.
Proof.
  assert (Hans : Sample.fails (Sample.argv Sample.used)
                 = Exited 1 (blit "Hel") Sample.failure_text) by reflexivity.
  assert (Hans' : Sample.fails (Sample.argv Sample.fresh)
                  = Exited 1 (blit "Hel") Sample.failure_text) by reflexivity.
  assert (Hrc : 1%Z <> 0%Z) by discriminate.
  assert (Hchk : exception_on_failure Sample.used = true) by reflexivity.
  assert (Hchk' : exception_on_failure Sample.fresh = true) by reflexivity.
  split; [ repeat split; assumption | split ].
  - exact (proj1 (first_call_untouched_by_failed_exit
                    Sample.repr_float Sample.env Sample.used Sample.fails
                    Sample.hello Hans Hrc Hchk)).
  - unfold Sample.run.
    rewrite (proj1 (first_call_untouched_by_failed_exit
                      Sample.repr_float Sample.env Sample.fresh Sample.fails
                      Sample.hello Hans' Hrc Hchk')).
    reflexivity.
Defined.

(** C2, as stated, fails: on an instance that does not raise on failure a
    first call whose process exits with 1 returns what the process wrote
    instead of raising. *)
Lemma lenient_first_call_does_not_raise :
  Sample.fails (Sample.argv Sample.lenient) = Exited 1 (blit "Hel") Sample.failure_text
  /\ first_call Sample.lenient = true
  /\ fst (Sample.run Sample.lenient Sample.fails) = inr (Some (lit "Hel")).
Proof. vm_compute. repeat split. Qed.

Lemma failure_policy_witness :
  (Sample.fails (Sample.argv Sample.used) = Exited 1 (blit "Hel") Sample.failure_text
   /\ 1%Z <> 0%Z
   /\ exception_on_failure Sample.used = true
   /\ decode_utf8 Sample.failure_text = Some (lit "error: unable to load model"))
  /\ fst (Sample.run Sample.used Sample.fails) = inr None
  /\ fst (Sample.run Sample.fresh Sample.fails)
     = inl (CalledProcessError 1 (Sample.argv Sample.fresh) (blit "Hel")
                               Sample.failure_text).
Proof.
  assert (Hans : Sample.fails (Sample.argv Sample.used)
                 = Exited 1 (blit "Hel") Sample.failure_text) by reflexivity.
  assert (Hans' : Sample.fails (Sample.argv Sample.fresh)
                  = Exited 1 (blit "Hel") Sample.failure_text) by reflexivity.
  assert (Hrc : 1%Z <> 0%Z) by discriminate.
  assert (Hchk : exception_on_failure Sample.used = true) by reflexivity.
  assert (Hchk' : exception_on_failure Sample.fresh = true) by reflexivity.
  assert (Hdec : decode_utf8 Sample.failure_text
                 = Some (lit "error: unable to load model")) by reflexivity.
  split; [ repeat split; assumption | split ].
  - exact (proj1 (proj2 (failed_exit_raises_first_then_recovers
                           Sample.repr_float Sample.env Sample.used
                           Sample.fails Sample.hello Hans Hrc Hchk Hdec)
                        eq_refl)).
  - exact (proj1 (failed_exit_raises_first_then_recovers
                    Sample.repr_float Sample.env Sample.fresh
                    Sample.fails Sample.hello Hans' Hrc Hchk' Hdec)
                 eq_refl).
Defined.

Lemma echo_stripping_witness :
  (Sample.echoes (Sample.argv Sample.fresh) = Exited 0 (blit "Hello world") []
   /\ decode_utf8 (blit "Hello world") = Some (lit "Hello world"))
  /\ fst (Sample.run Sample.fresh Sample.echoes) = inr (Some (lit " world")).
Proof.
  assert (Hans : Sample.echoes (Sample.argv Sample.fresh)
                 = Exited 0 (blit "Hello world") []) by reflexivity.
  assert (Hdec : decode_utf8 (blit "Hello world")
                 = Some (lit "Hello world")) by reflexivity.
  split; [ split; assumption | ].
  exact (proj1 (zero_exit_returns_stripped_output
                  Sample.repr_float Sample.env Sample.fresh Sample.echoes
                  Sample.hello Hans Hdec)
               (lit " world") eq_refl).
Defined.

Lemma unstartable_witness :
  (Sample.unstartable (Sample.argv Sample.fresh)
   = SpawnFailed (OSError (lit "[Errno 8] Exec format error"))
   /\ is_CalledProcessError (OSError (lit "[Errno 8] Exec format error"))
      = false)
  /\ Sample.run Sample.fresh Sample.unstartable
     = (inr None,
        (Sample.fresh,
         [Spawn (Sample.argv Sample.fresh) true;
          LogErrorExn (OSError (lit "[Errno 8] Exec format error"))])).
Proof.
  assert (Hans : Sample.unstartable (Sample.argv Sample.fresh)
                 = SpawnFailed (OSError (lit "[Errno 8] Exec format error")))
    by reflexivity.
  assert (Hcls : is_CalledProcessError
                   (OSError (lit "[Errno 8] Exec format error")) = false)
    by reflexivity.
  split; [ split; assumption | ].
  exact (proj1 (other_failure_is_logged_and_swallowed
                  Sample.repr_float Sample.env Sample.fresh
                  Sample.unstartable Sample.hello Hans Hcls)).
Defined.


Lemma garbled_witness :
  (Sample.garbles (Sample.argv Sample.fresh) = Exited 0 [xff; xfe] []
   /\ decode_utf8 [xff; xfe] = None)
  /\ Sample.run Sample.fresh Sample.garbles
     = (inr None,
        (Sample.fresh,
         [Spawn (Sample.argv Sample.fresh) true;
          LogErrorExn (UnicodeDecodeError [xff; xfe])]))
  /\ fst (Sample.run (fst (snd (Sample.run Sample.fresh Sample.garbles))) Sample.fails)
     = inl (CalledProcessError 1 (Sample.argv Sample.fresh) (blit "Hel")
                               Sample.failure_text).
Proof.
  assert (Hans : Sample.garbles (Sample.argv Sample.fresh)
                 = Exited 0 [xff; xfe] []) by reflexivity.
  assert (Hdec : decode_utf8 [xff; xfe] = None) by reflexivity.
  assert (Hans' : Sample.fails (Sample.argv Sample.fresh)
                  = Exited 1 (blit "Hel") Sample.failure_text) by reflexivity.
  assert (Hrc : 1%Z <> 0%Z) by discriminate.
  assert (Herr : decode_utf8 Sample.failure_text
                 = Some (lit "error: unable to load model")) by reflexivity.
  split; [ split; assumption | ].
  destruct (undecodable_success_is_swallowed
              Sample.repr_float Sample.env Sample.fresh Sample.garbles
              Sample.hello Hans Hdec) as (Hcall & Hnext).
  split; [ exact Hcall | ].
  exact (Hnext Sample.fails Sample.hello 1%Z (blit "Hel") Sample.failure_text
               (lit "error: unable to load model")
               eq_refl eq_refl Hans' Hrc Herr).
Defined.

(** A two-byte model file is turned down with the format error, after one
    read of four bytes that returned the two there are. *)
Lemma short_model_witness :
  (GGML_MAIN_PATH Sample.env = Some Sample.exe
   /\ isfile Sample.env Sample.exe = true
   /\ files Sample.env Sample.stub = Some [x47; x47]
   /\ ((List.length [x47; x47] < 4)%nat
       \/ firstn 4 [x47; x47] <> GGUF_MAGIC))
  /\ construct Sample.env Sample.stub 10
     = (inl (RuntimeError (lit "models/stub.bin is not in GGUF format")),
        [asked_env; IsFile Sample.exe; IsFile Sample.stub; Open Sample.stub;
         Read 4 [x47; x47]; Close Sample.stub]).
Proof.
  assert (Hexe : GGML_MAIN_PATH Sample.env = Some Sample.exe) by reflexivity.
  assert (Hfile : isfile Sample.env Sample.exe = true) by reflexivity.
  assert (Hdata : files Sample.env Sample.stub = Some [x47; x47])
    by reflexivity.
  assert (Hbad : (List.length [x47; x47] < 4)%nat
                 \/ firstn 4 [x47; x47] <> GGUF_MAGIC)
    by (left; repeat constructor).
  split; [ repeat split; assumption | ].
  exact (proj1 (bad_magic_is_rejected Sample.env Sample.stub 10
                                      Hexe Hfile Hdata Hbad)).
Defined.

(** The three earlier checks, each on an installation that fails it. *)
Lemma construction_order_witness :
  construct Sample.env_unset Sample.absent 10
  = (inl (RuntimeError
            (lit "Executable not provided by environment GGML_MAIN_PATH")),
     [asked_env])
  /\ construct Sample.env_misplaced Sample.stub 10
     = (inl (FileNotFoundError
               (lit "Path provided is not a file: models/absent.gguf")),
        [asked_env; IsFile Sample.absent])
  /\ construct Sample.env Sample.absent 10
     = (inl (FileNotFoundError
               (lit "File not found, unable to load model: models/absent.gguf")),
        [asked_env; IsFile Sample.exe; IsFile Sample.absent]).
Proof.
  split; [ | split ].
  - exact (proj1 (construction_checks_in_order
                    Sample.env_unset Sample.absent 10) eq_refl).
  - exact (proj1 (proj2 (construction_checks_in_order
                           Sample.env_misplaced Sample.stub 10))
                 Sample.absent eq_refl eq_refl).
  - exact (proj1 (proj2 (proj2 (construction_checks_in_order
                                  Sample.env Sample.absent 10)))
                 Sample.exe eq_refl eq_refl eq_refl).
Defined.

(** C7, as stated, fails: with the run-level seed set to -1 the
    constructor succeeds and the instance has seed -1, which it passes to
    the process as [-s -1]. *)
Lemma negative_run_seed_is_kept :
  run_seed Sample.env_negative = Some (-1)%Z
  /\ construct Sample.env_negative Sample.model 10
     = (inr Sample.negative,
        [asked_env; IsFile Sample.exe; IsFile Sample.model; Open Sample.model;
         Read 4 GGUF_MAGIC; Close Sample.model])
  /\ seed Sample.negative = VInt (-1)
  /\ skipn 19 (build_command Sample.repr_float Sample.negative Sample.hello)
     = [lit "-s"; lit "-1"].
Proof. vm_compute. repeat split. Qed.

(** Construction on the sample installation, without and with a run-level
    seed. *)
Lemma seed_witness :
  (construct Sample.env Sample.model 10
   = (inr Sample.fresh,
      [asked_env; IsFile Sample.exe; IsFile Sample.model; Open Sample.model;
       Read 4 GGUF_MAGIC; Close Sample.model])
   /\ construct Sample.env_seeded Sample.model 10
      = (inr Sample.seeded,
         [asked_env; IsFile Sample.exe; IsFile Sample.model;
          Open Sample.model; Read 4 GGUF_MAGIC; Close Sample.model]))
  /\ seed Sample.fresh = VInt 0
  /\ seed Sample.seeded = VInt 1234.
Proof.
  assert (Hok : construct Sample.env Sample.model 10
                = (inr Sample.fresh,
                   [asked_env; IsFile Sample.exe; IsFile Sample.model;
                    Open Sample.model; Read 4 GGUF_MAGIC;
                    Close Sample.model])) by reflexivity.
  assert (Hseeded : construct Sample.env_seeded Sample.model 10
                    = (inr Sample.seeded,
                       [asked_env; IsFile Sample.exe; IsFile Sample.model;
                        Open Sample.model; Read 4 GGUF_MAGIC;
                        Close Sample.model])) by reflexivity.
  split; [ split; assumption | split ].
  - exact (proj1 (proj2 (proj2 (constructed_seed_is_resolved
                                  Sample.env Sample.model 10 Hok)))
                 eq_refl).
  - exact (proj1 (proj2 (constructed_seed_is_resolved
                           Sample.env_seeded Sample.model 10 Hseeded))
                 1234%Z eq_refl).
Defined.

(* ===================================================================== *)
(** ** Every way a call can end *)
(* ===================================================================== *)

Section CallOutcomes.

Variable repr_float : float -> str.
Variable env : Env.

(** Whatever the process answers, the call ends in one of the six ways of
    [call_outcome]. *)
Lemma call_has_outcome self answer prompt :
  call_outcome self prompt (answer (build_command repr_float self prompt))
               (started repr_float env self prompt)
               (call repr_float env self answer prompt).
Proof.
  unfold call, _call_model, subprocess_run, decode, emit, get_self,
    started, announce, bind, try_except, gets, modify, ret, raise.
  cbn [fst snd].
  destruct (system_verbose env >? 1)%Z; cbn [fst snd app];
    (destruct (answer (build_command repr_float self prompt))
       as [rc out err | e] eqn:Hans; cbn [fst snd app];
     [ destruct (exception_on_failure self && negb (rc =? 0)%Z) eqn:Hchk;
       cbn [fst snd stdout app];
       [ destruct (decode_utf8 err) as [text | ] eqn:Herr; cbn [fst snd app];
         [ destruct (first_call self) eqn:Hfc;
           [ exact (@Escalated self prompt _ _ rc _ out err text Hfc Herr)
           | exact (@Recovered self prompt _ _ err text Hfc Herr) ]
         | exact (@Unreadable self prompt _ _ err Herr) ]
       | destruct (decode_utf8 out) as [text | ] eqn:Hout; cbn [fst snd app];
         [ exact (@Returned self prompt _ _ rc out err text eq_refl Hchk Hout)
         | exact (@Garbled self prompt _ _ rc out err eq_refl Hchk Hout) ] ]
     | destruct e as [ m | m | rc' cmd' out' err' | b | m | m ];
       cbn [fst snd app];
       try (match goal with
            | |- call_outcome _ _ (SpawnFailed ?e) ?T0 _ =>
              exact (@Swallowed self prompt (SpawnFailed e) T0 e
                                eq_refl eq_refl)
            end);
       destruct (decode_utf8 err') as [text | ] eqn:Herr; cbn [fst snd app];
       [ destruct (first_call self) eqn:Hfc;
         [ exact (@Escalated self prompt _ _ rc' cmd' out' err' text Hfc Herr)
         | exact (@Recovered self prompt _ _ err' text Hfc Herr) ]
       | exact (@Unreadable self prompt _ _ err' Herr) ] ]).
Qed.

Lemma spawns_in_started self prompt :
  filter is_Spawn (started repr_float env self prompt)
  = [Spawn (build_command repr_float self prompt) (exception_on_failure self)].
Proof.
  unfold started, announce.
  now destruct (system_verbose env >? 1)%Z.
Qed.

Lemma logs_in_started self prompt :
  filter is_log (started repr_float env self prompt) = [].
Proof.
  unfold started, announce.
  now destruct (system_verbose env >? 1)%Z.
Qed.

End CallOutcomes.

(* ===================================================================== *)
(** ** Further properties of [_call_model] *)
(* ===================================================================== *)

Section CallProperties.

Variable repr_float : float -> str.
Variable env : Env.

(** The flag after a call, in terms of the flag before and of whether the
    call came back with text. *)
Lemma first_call_after_call self answer prompt :
  first_call (fst (snd (call repr_float env self answer prompt)))
  = first_call self
    && negb (returned_text (call repr_float env self answer prompt)).
Proof.
  destruct (call_has_outcome repr_float env self answer prompt);
    unfold returned_text; cbn [fst snd first_call set_first_call negb];
    now rewrite ?andb_true_r, ?andb_false_r.
Qed.

(** A series of calls leaves the instance as it was, or with only the
    flag cleared. *)
Lemma after_calls_keeps_or_clears calls :
  forall self,
    after_calls repr_float env calls self = self
    \/ after_calls repr_float env calls self = set_first_call false self.
Proof.
  induction calls as [ | [answer prompt] rest IH ]; intros self.
  - now left.
  - cbn [after_calls].
    destruct (call_keeps_or_clears repr_float env self answer prompt)
      as [-> | ->].
    + apply IH.
    + destruct (IH (set_first_call false self)) as [-> | ->];
        right; reflexivity.
Qed.

Lemma set_first_call_idle g :
  first_call g = false -> set_first_call false g = g.
Proof. destruct g; cbn. now intros ->. Qed.


(** X2. The verbosity of the run decides only whether the command is
    printed before the process starts: under any two settings a call
    returns or raises the same, leaves the same instance, and has the same
    trace after what it announced. *)
Theorem verbosity_only_announces env' self answer prompt :
  exists r g T,
    call repr_float env self answer prompt
    = (r, (g, announce repr_float env self prompt ++ T))
    /\ call repr_float env' self answer prompt
       = (r, (g, announce repr_float env' self prompt ++ T)).
Proof.
  unfold call, _call_model, subprocess_run, decode, emit, get_self,
    announce, bind, try_except, gets, modify, ret, raise.
  cbn [fst snd].
  destruct (system_verbose env >? 1)%Z, (system_verbose env' >? 1)%Z;
    cbn [fst snd app];
    (destruct (answer (build_command repr_float self prompt))
       as [rc out err | e]; cbn [fst snd app];
     [ destruct (exception_on_failure self && negb (rc =? 0)%Z);
       cbn [fst snd stdout app];
       [ destruct (decode_utf8 err); cbn [fst snd app];
         [ destruct (first_call self) | ]
       | destruct (decode_utf8 out); cbn [fst snd app] ]
     | destruct e as [ m | m | rc' cmd' out' err' | b | m | m ];
       cbn [fst snd app];
       try (destruct (decode_utf8 err'); cbn [fst snd app];
            [ destruct (first_call self) | ]) ];
     do 3 eexists; split; reflexivity).
Qed.

(** X3. Every call starts the external process exactly once, with the
    vector of [build_command] and with [check] set to the instance's
    [exception_on_failure], however the call ends. *)
Theorem one_spawn_per_call self answer prompt :
  filter is_Spawn (snd (snd (call repr_float env self answer prompt)))
  = [Spawn (build_command repr_float self prompt)
           (exception_on_failure self)].
Proof.
  destruct (call_has_outcome repr_float env self answer prompt);
    cbn [fst snd]; rewrite ?filter_app, spawns_in_started; reflexivity.
Qed.

(** X4. Calls change nothing of an instance but the first-call flag:
    after any series of calls, however each ended, the instance builds the
    same argument vector for every prompt and has the same
    [exception_on_failure]. *)
Theorem calls_only_touch_the_flag calls self :
  (after_calls repr_float env calls self = self
   \/ after_calls repr_float env calls self = set_first_call false self)
  /\ (forall prompt,
         build_command repr_float (after_calls repr_float env calls self)
                       prompt
         = build_command repr_float self prompt)
  /\ exception_on_failure (after_calls repr_float env calls self)
     = exception_on_failure self.
Proof.
  destruct (after_calls_keeps_or_clears calls self) as [H | H];
    rewrite H; repeat split; auto.
Qed.

(** X5. On an instance that is on its first call, the flag is cleared by
    exactly the calls that come back with text: a call that returns [None]
    or raises leaves it set. *)
Theorem flag_cleared_exactly_by_text self answer prompt :
  first_call self = true ->
  (first_call (fst (snd (call repr_float env self answer prompt))) = false
   <-> returned_text (call repr_float env self answer prompt) = true).
Proof.
  intros Hfc. rewrite first_call_after_call, Hfc. cbn [andb].
  destruct (returned_text (call repr_float env self answer prompt));
    cbn [negb]; split; congruence.
Qed.

(** X6. A call that returns [None] has logged exactly one error, and a
    call that returns text has logged none. *)
Theorem absent_result_is_logged self answer prompt :
  (fst (call repr_float env self answer prompt) = inr None ->
   List.length
     (filter is_log (snd (snd (call repr_float env self answer prompt))))
   = 1%nat)
  /\ (returned_text (call repr_float env self answer prompt) = true ->
      filter is_log (snd (snd (call repr_float env self answer prompt)))
      = []).
Proof.
  destruct (call_has_outcome repr_float env self answer prompt);
    unfold returned_text; cbn [fst snd];
    rewrite ?filter_app, logs_in_started;
    split; intros Hres; try discriminate Hres; reflexivity.
Qed.

(** X7. From an instance that is no longer on its first call, no
    [CalledProcessError] leaves a call, whatever the process does and
    whether or not its stderr decodes. *)
Theorem later_calls_raise_no_CalledProcessError self answer prompt e :
  first_call self = false ->
  fst (call repr_float env self answer prompt) = inl e ->
  is_CalledProcessError e = false.
Proof.
  intros Hfc.
  destruct (call_has_outcome repr_float env self answer prompt);
    cbn [fst]; intros He; try discriminate He;
    injection He as <-; [ congruence | reflexivity ].
Qed.

(** X8. Once a call has come back with text, a checked run that exits
    non-zero no longer raises: after any further calls, such a run (with a
    stderr that decodes) makes the call return [None]. *)
Theorem recovers_after_first_text
        self answer prompt calls answer' prompt' rc out err text :
  returned_text (call repr_float env self answer prompt) = true ->
  exception_on_failure self = true ->
  answer' (build_command repr_float self prompt') = Exited rc out err ->
  rc <> 0%Z ->
  decode_utf8 err = Some text ->
  fst (call repr_float env
            (after_calls repr_float env calls
               (fst (snd (call repr_float env self answer prompt))))
            answer' prompt')
  = inr None.
Proof.
  intros Htext Hchk Hans Hrc Hdec.
  assert (Hclr : first_call
                   (fst (snd (call repr_float env self answer prompt)))
                 = false)
    by (rewrite first_call_after_call, Htext; apply andb_false_r).
  assert (Hnow : fst (snd (call repr_float env self answer prompt))
                 = set_first_call false self).
  { destruct (call_keeps_or_clears repr_float env self answer prompt)
      as [H' | H']; [ | exact H' ].
    rewrite H' in Hclr |- *. symmetry.
    now apply set_first_call_idle. }
  assert (Hsame : after_calls repr_float env calls
                    (fst (snd (call repr_float env self answer prompt)))
                  = set_first_call false self).
  { rewrite Hnow.
    destruct (after_calls_keeps_or_clears calls (set_first_call false self))
      as [H | H]; rewrite H; reflexivity. }
  rewrite Hsame.
  rewrite (call_checked_nonzero repr_float env (set_first_call false self)
             answer' prompt' Hans Hrc Hchk Hdec).
  reflexivity.
Qed.

(** X9. Through any series of calls from an instance on its first call,
    the flag is still set at the end exactly when none of the calls came
    back with text. *)
Theorem flag_set_until_first_text calls :
  forall self,
    first_call self = true ->
    (first_call (after_calls repr_float env calls self) = true
     <-> texts_returned repr_float env calls self = 0%nat).
Proof.
  induction calls as [ | [answer prompt] rest IH ]; intros self Hfc.
  - cbn. now split.
  - cbn [after_calls texts_returned].
    pose proof (first_call_after_call self answer prompt) as Hafter.
    rewrite Hfc in Hafter. cbn [andb] in Hafter.
    destruct (returned_text (call repr_float env self answer prompt));
      cbn [negb] in Hafter.
    + rewrite (first_call_stays_false repr_float env rest _ Hafter).
      split; [ discriminate | intros H; discriminate H ].
    + cbn [Nat.add]. now apply IH.
Qed.

End CallProperties.

(* ===================================================================== *)
(** ** Further properties of the returned text *)
(* ===================================================================== *)

(** [lstrip] takes whitespace off the front and nothing else. *)
Lemma lstrip_splits (s : str) :
  exists ws,
    s = ws ++ lstrip s /\ forallb isspace ws = true.
Proof.
  induction s as [ | c s (ws & Hs & Hws) ].
  - now exists [].
  - cbn [lstrip]. destruct (isspace c) eqn:Hc.
    + exists (c :: ws). cbn [app forallb]. rewrite Hc, Hws.
      split; [ now f_equal | reflexivity ].
    + now exists [].
Qed.

(** The substitution takes [p] off the front, or nothing. *)
Lemma re_sub_splits (p s : str) :
  s = p ++ re_sub_anchored_escape p s \/ re_sub_anchored_escape p s = s.
Proof.
  unfold re_sub_anchored_escape.
  destruct (strip_at p s) as [rest | ] eqn:E.
  - left. now apply strip_at_Some.
  - now right.
Qed.

(** Bytes below 0x80 decode to themselves. *)
Lemma decode_utf8_ascii (bs : bytes) :
  forallb (fun b => (Byte.to_N b <? 0x80)%N) bs = true ->
  decode_utf8 bs = Some (map Byte.to_N bs).
Proof.
  induction bs as [ | b bs IH ]; [ reflexivity | ].
  cbn [forallb]. intros H. apply andb_prop in H as [Hb Hbs].
  cbn [decode_utf8 map]. rewrite Hb, (IH Hbs). reflexivity.
Qed.

Section TextProperties.

Variable repr_float : float -> str.
Variable env : Env.

(** X10. Text that a call returns is a tail of what the process wrote: the
    decoded stdout is some leading whitespace, then possibly the prompt
    without its own leading whitespace, then the returned text. *)
Theorem returned_text_is_a_tail self answer prompt result :
  fst (call repr_float env self answer prompt) = inr (Some result) ->
  exists rc out err text ws,
    answer (build_command repr_float self prompt) = Exited rc out err
    /\ decode_utf8 out = Some text
    /\ forallb isspace ws = true
    /\ (text = ws ++ lstrip prompt ++ result \/ text = ws ++ result).
Proof.
  destruct (call_has_outcome repr_float env self answer prompt)
    as [ rc out err text Hans Hchk Hdec | | | | | ];
    cbn [fst]; intros Hres; try discriminate Hres.
  injection Hres as <-.
  destruct (lstrip_splits text) as (ws & Htext & Hws).
  exists rc, out, err, text, ws. repeat split; try assumption.
  destruct (re_sub_splits (lstrip prompt) (lstrip text)) as [H | H].
  - left. now rewrite <- H.
  - right. now rewrite H.
Qed.

(** X11. With a prompt that is empty or all whitespace there is no echo to
    remove: on a zero exit the call returns the decoded stdout without its
    leading whitespace. *)
Theorem blank_prompt_only_trims self answer prompt out err text :
  lstrip prompt = [] ->
  answer (build_command repr_float self prompt) = Exited 0 out err ->
  decode_utf8 out = Some text ->
  fst (call repr_float env self answer prompt) = inr (Some (lstrip text)).
Proof.
  intros Hblank Hans Hdec.
  assert (Hchk : exception_on_failure self && negb (0 =? 0)%Z = false)
    by apply andb_false_r.
  rewrite (call_completed repr_float env self answer prompt Hans Hchk Hdec).
  now rewrite Hblank.
Qed.

(** X12. A process that exits with zero and writes only ASCII always gets
    its output back as text: the decoding cannot fail on it. *)
Theorem ascii_output_is_returned self answer prompt out err :
  answer (build_command repr_float self prompt) = Exited 0 out err ->
  forallb (fun b => (Byte.to_N b <? 0x80)%N) out = true ->
  call repr_float env self answer prompt
  = (inr (Some (re_sub_anchored_escape
                  (lstrip prompt) (lstrip (map Byte.to_N out)))),
     (set_first_call false self, started repr_float env self prompt)).
Proof.
  intros Hans Hascii.
  assert (Hchk : exception_on_failure self && negb (0 =? 0)%Z = false)
    by apply andb_false_r.
  exact (call_completed repr_float env self answer prompt Hans Hchk
                        (decode_utf8_ascii out Hascii)).
Qed.

End TextProperties.

(* ===================================================================== *)
(** ** Further properties of the argument vector *)
(* ===================================================================== *)

Section VectorProperties.

Variable repr_float : float -> str.

Lemma rendered_params_length (params : list (str * value)) :
  List.length
    (flat_map (fun kv => if is_None (snd kv) then []
                         else [fst kv; py_str repr_float (snd kv)]) params)
  = 2 * List.length (filter (fun kv => negb (is_None (snd kv))) params).
Proof.
  induction params as [ | [key v] params IH ]; [ reflexivity | ].
  cbn [flat_map filter fst snd]. rewrite length_app, IH.
  destruct (is_None v); cbn [negb List.length]; lia.
Qed.

(** X13. The argument vector has three elements for the executable, [-p]
    and the prompt, and two more for each parameter that is not [None]:
    flags and values come in pairs, and the vector has between 3 and 21
    elements. *)
Theorem vector_length self prompt :
  List.length (build_command repr_float self prompt)
  = 3 + 2 * List.length (set_params self)
  /\ List.length (set_params self) <= 9.
Proof.
  split.
  - unfold build_command.
    rewrite append_params_flat_map, map_app, render_params, length_app.
    rewrite rendered_params_length. reflexivity.
  - unfold set_params.
    apply (Nat.le_trans _ _ _ (filter_length_le _ (command_params self))).
    reflexivity.
Qed.

End VectorProperties.

(* ===================================================================== *)
(** ** Further properties of the constructor *)
(* ===================================================================== *)

Lemma bytes_eqb_refl (a : bytes) : bytes_eqb a a = true.
Proof.
  unfold bytes_eqb. now destruct (list_eq_dec byte_eq_dec a a).
Qed.

Section ConstructorProperties.

Variable repr_float : float -> str.
Variable env : Env.

(** X14. With the executable configured and in place, a model file that
    starts with the four magic bytes is accepted whatever follows them:
    the constructor returns an instance on its first call, raising on
    failure, with the model path as name and the seed resolved, after one
    read of four bytes and with the file closed. *)
Theorem valid_configuration_constructs model generations exe data :
  GGML_MAIN_PATH env = Some exe ->
  isfile env exe = true ->
  files env model = Some data ->
  firstn 4 data = GGUF_MAGIC ->
  exists g,
    construct env model generations
    = (inr g,
       [asked_env; IsFile exe; IsFile model; Open model;
        Read 4 GGUF_MAGIC; Close model])
    /\ path_to_ggml_main g = exe
    /\ name g = VStr model
    /\ first_call g = true
    /\ exception_on_failure g = true.
Proof.
  intros Hexe Hfile Hdata Hmagic.
  rewrite (construct_reads_magic env model generations Hexe Hfile Hdata).
  rewrite Hmagic, bytes_eqb_refl.
  eexists. repeat split.
Qed.

(** X15. The constructor opens no file but the model, at most once, and
    closes it again on every path, the format error included: when it
    opened the model, closing it is the last thing it did. *)
Theorem model_file_is_closed model generations :
  (filter is_Open (snd (construct env model generations)) = []
   /\ filter is_Close (snd (construct env model generations)) = [])
  \/ (filter is_Open (snd (construct env model generations)) = [Open model]
      /\ filter is_Close (snd (construct env model generations))
         = [Close model]
      /\ last (snd (construct env model generations)) asked_env
         = Close model).
Proof.
  destruct (GGML_MAIN_PATH env) as [exe | ] eqn:Hexe.
  - destruct (isfile env exe) eqn:Hfile.
    + destruct (files env model) as [data | ] eqn:Hdata.
      * right.
        rewrite (construct_reads_magic env model generations
                                       Hexe Hfile Hdata).
        repeat split.
      * left.
        rewrite (construct_model_not_a_file env model generations Hexe Hfile);
          [ now split | unfold isfile; now rewrite Hdata ].
    + left.
      rewrite (construct_exe_not_a_file env model generations Hexe Hfile).
      now split.
  - left. rewrite (construct_exe_unset env model generations Hexe).
    now split.
Qed.

(** X16. The vector a constructed instance runs: the configured
    executable, [-p] and the prompt, [-m] and the model path, [-n] and the
    base class's token limit unless that is [None], the six sampling
    parameters at the class defaults, and [-s] with the run-level seed, or
    0 when there is none. *)
Theorem constructed_vector model generations g trace prompt :
  construct env model generations = (inr g, trace) ->
  exists exe,
    GGML_MAIN_PATH env = Some exe
    /\ build_command repr_float g prompt
       = exe :: lit "-p" :: prompt :: lit "-m" :: model
           :: flag_with repr_float "-n" (Generator_max_tokens env)
           ++ [ lit "--repeat-penalty"; repr_float 1.1;
                lit "--presence-penalty"; repr_float 0.0;
                lit "--frequency-penalty"; repr_float 0.0;
                lit "--top-k"; lit "40";
                lit "--top-p"; repr_float 0.95;
                lit "--temp"; repr_float 0.8;
                lit "-s";
                str_of_int (match run_seed env with
                            | Some s => s
                            | None => 0%Z
                            end) ].
Proof.
  intros Hok.
  destruct (construct_inr_valid env model generations Hok)
    as (exe & data & Hexe & _ & _ & _ & ->).
  exists exe. split; [ exact Hexe | ].
  unfold build_command.
  rewrite append_params_flat_map, map_app, render_params.
  unfold command_params, flag_with, Generator_init.
  cbn [map py_str flat_map fst snd app is_None
       path_to_ggml_main name max_tokens repeat_penalty presence_penalty
       frequency_penalty top_k top_p temperature seed].
  destruct (run_seed env); destruct (is_None (Generator_max_tokens env));
    reflexivity.
Qed.

(** X17. A constructed instance is on its first call and raises on
    failure: if the first run exits non-zero (with a stderr that decodes),
    the call prints and logs the stderr and raises the
    [CalledProcessError], leaving the instance as it was. *)
Theorem constructed_instance_escalates
        model generations g trace answer prompt rc out err text :
  construct env model generations = (inr g, trace) ->
  answer (build_command repr_float g prompt) = Exited rc out err ->
  rc <> 0%Z ->
  decode_utf8 err = Some text ->
  call repr_float env g answer prompt
  = (inl (CalledProcessError rc (build_command repr_float g prompt) out err),
     (g, started repr_float env g prompt ++ [Print text; LogError text])).
Proof.
  intros Hok Hans Hrc Hdec.
  destruct (construct_inr_valid env model generations Hok)
    as (exe & data & _ & _ & _ & _ & Hg).
  assert (Hchk : exception_on_failure g = true) by now rewrite Hg.
  assert (Hfc : first_call g = true) by now rewrite Hg.
  rewrite (call_checked_nonzero repr_float env g answer prompt
             Hans Hrc Hchk Hdec).
  now rewrite Hfc.
Qed.

End ConstructorProperties.

(* ===================================================================== *)
(** ** Further runs on the sample installation *)
(* ===================================================================== *)


Lemma flag_cleared_witness :
  first_call Sample.fresh = true
  /\ first_call (fst (snd (Sample.run Sample.fresh Sample.echoes))) = false
  /\ returned_text (Sample.run Sample.fresh Sample.echoes) = true.
Proof.
  assert (Hfc : first_call Sample.fresh = true) by reflexivity.
  assert (Htext : returned_text (Sample.run Sample.fresh Sample.echoes)
                  = true) by reflexivity.
  split; [ exact Hfc | split; [ | exact Htext ] ].
  exact (proj2 (flag_cleared_exactly_by_text
                  Sample.repr_float Sample.env Sample.fresh Sample.echoes
                  Sample.hello Hfc) Htext).
Defined.

Lemma later_call_witness :
  (first_call Sample.used = false
   /\ fst (Sample.run Sample.used Sample.croaks)
      = inl (UnicodeDecodeError [xc3; x28]))
  /\ is_CalledProcessError (UnicodeDecodeError [xc3; x28]) = false.
Proof.
  assert (Hfc : first_call Sample.used = false) by reflexivity.
  assert (Hexn : fst (Sample.run Sample.used Sample.croaks)
                 = inl (UnicodeDecodeError [xc3; x28])) by reflexivity.
  split; [ split; assumption | ].
  exact (later_calls_raise_no_CalledProcessError
           Sample.repr_float Sample.env Sample.used Sample.croaks
           Sample.hello Hfc Hexn).
Defined.

Lemma recovery_witness :
  (returned_text (Sample.run Sample.fresh Sample.echoes) = true
   /\ exception_on_failure Sample.fresh = true
   /\ Sample.fails (Sample.argv Sample.fresh)
      = Exited 1 (blit "Hel") Sample.failure_text
   /\ 1%Z <> 0%Z
   /\ decode_utf8 Sample.failure_text
      = Some (lit "error: unable to load model"))
  /\ fst (Sample.run
            (after_calls Sample.repr_float Sample.env
               [(Sample.garbles, Sample.hello);
                (Sample.unstartable, Sample.hello)]
               (fst (snd (Sample.run Sample.fresh Sample.echoes))))
            Sample.fails)
     = inr None.
Proof.
  assert (Htext : returned_text (Sample.run Sample.fresh Sample.echoes)
                  = true) by reflexivity.
  assert (Hchk : exception_on_failure Sample.fresh = true) by reflexivity.
  assert (Hans : Sample.fails (Sample.argv Sample.fresh)
                 = Exited 1 (blit "Hel") Sample.failure_text)
    by reflexivity.
  assert (Hrc : 1%Z <> 0%Z) by discriminate.
  assert (Hdec : decode_utf8 Sample.failure_text
                 = Some (lit "error: unable to load model")) by reflexivity.
  split; [ repeat split; assumption | ].
  exact (recovers_after_first_text
           Sample.repr_float Sample.env Sample.fresh Sample.echoes
           Sample.hello
           [(Sample.garbles, Sample.hello);
            (Sample.unstartable, Sample.hello)]
           Sample.fails Sample.hello Htext Hchk Hans Hrc Hdec).
Defined.

Lemma flag_still_set_witness :
  (first_call Sample.fresh = true
   /\ texts_returned Sample.repr_float Sample.env
        [(Sample.fails, Sample.hello); (Sample.garbles, Sample.hello);
         (Sample.unstartable, Sample.hello)] Sample.fresh = 0%nat)
  /\ first_call
       (after_calls Sample.repr_float Sample.env
          [(Sample.fails, Sample.hello); (Sample.garbles, Sample.hello);
           (Sample.unstartable, Sample.hello)] Sample.fresh)
     = true.
Proof.
  assert (Hfc : first_call Sample.fresh = true) by reflexivity.
  assert (Hnone : texts_returned Sample.repr_float Sample.env
                    [(Sample.fails, Sample.hello);
                     (Sample.garbles, Sample.hello);
                     (Sample.unstartable, Sample.hello)] Sample.fresh
                  = 0%nat) by reflexivity.
  split; [ split; assumption | ].
  exact (proj2 (flag_set_until_first_text
                  Sample.repr_float Sample.env
                  [(Sample.fails, Sample.hello);
                   (Sample.garbles, Sample.hello);
                   (Sample.unstartable, Sample.hello)]
                  Sample.fresh Hfc) Hnone).
Defined.

Lemma tail_witness :
  fst (Sample.run Sample.fresh Sample.echoes) = inr (Some (lit " world"))
  /\ exists rc out err text ws,
       Sample.echoes (Sample.argv Sample.fresh) = Exited rc out err
       /\ decode_utf8 out = Some text
       /\ forallb isspace ws = true
       /\ (text = ws ++ lstrip Sample.hello ++ lit " world"
           \/ text = ws ++ lit " world").
Proof.
  assert (Hres : fst (Sample.run Sample.fresh Sample.echoes)
                 = inr (Some (lit " world"))) by reflexivity.
  split; [ exact Hres | ].
  exact (returned_text_is_a_tail
           Sample.repr_float Sample.env Sample.fresh Sample.echoes
           Sample.hello Hres).
Defined.

Lemma blank_prompt_witness :
  (lstrip (lit "  ") = []
   /\ Sample.answers (build_command Sample.repr_float Sample.fresh (lit "  "))
      = Exited 0 (blit " 42") []
   /\ decode_utf8 (blit " 42") = Some (lit " 42"))
  /\ fst (call Sample.repr_float Sample.env Sample.fresh Sample.answers
               (lit "  "))
     = inr (Some (lit "42")).
Proof.
  assert (Hblank : lstrip (lit "  ") = []) by reflexivity.
  assert (Hans : Sample.answers
                   (build_command Sample.repr_float Sample.fresh (lit "  "))
                 = Exited 0 (blit " 42") []) by reflexivity.
  assert (Hdec : decode_utf8 (blit " 42") = Some (lit " 42")) by reflexivity.
  split; [ repeat split; assumption | ].
  exact (blank_prompt_only_trims
           Sample.repr_float Sample.env Sample.fresh Sample.answers
           (lit "  ") Hblank Hans Hdec).
Defined.

Lemma ascii_output_witness :
  (Sample.answers (Sample.argv Sample.used) = Exited 0 (blit " 42") []
   /\ forallb (fun b => (Byte.to_N b <? 0x80)%N) (blit " 42") = true)
  /\ fst (Sample.run Sample.used Sample.answers) = inr (Some (lit "42")).
Proof.
  assert (Hans : Sample.answers (Sample.argv Sample.used)
                 = Exited 0 (blit " 42") []) by reflexivity.
  assert (Hascii : forallb (fun b => (Byte.to_N b <? 0x80)%N) (blit " 42")
                   = true) by reflexivity.
  split; [ split; assumption | ].
  exact (f_equal fst (ascii_output_is_returned
                        Sample.repr_float Sample.env Sample.used
                        Sample.answers Sample.hello Hans Hascii)).
Defined.

Lemma valid_configuration_witness :
  (GGML_MAIN_PATH Sample.env_seeded = Some Sample.exe
   /\ isfile Sample.env_seeded Sample.exe = true
   /\ files Sample.env_seeded Sample.model
      = Some (GGUF_MAGIC ++ [x03; x00; x00; x00])
   /\ firstn 4 (GGUF_MAGIC ++ [x03; x00; x00; x00]) = GGUF_MAGIC)
  /\ exists g,
       construct Sample.env_seeded Sample.model 10
       = (inr g,
          [asked_env; IsFile Sample.exe; IsFile Sample.model;
           Open Sample.model; Read 4 GGUF_MAGIC; Close Sample.model])
       /\ path_to_ggml_main g = Sample.exe
       /\ name g = VStr Sample.model
       /\ first_call g = true
       /\ exception_on_failure g = true.
Proof.
  assert (Hexe : GGML_MAIN_PATH Sample.env_seeded = Some Sample.exe)
    by reflexivity.
  assert (Hfile : isfile Sample.env_seeded Sample.exe = true) by reflexivity.
  assert (Hdata : files Sample.env_seeded Sample.model
                  = Some (GGUF_MAGIC ++ [x03; x00; x00; x00]))
    by reflexivity.
  assert (Hmagic : firstn 4 (GGUF_MAGIC ++ [x03; x00; x00; x00])
                   = GGUF_MAGIC) by reflexivity.
  split; [ repeat split; assumption | ].
  exact (valid_configuration_constructs
           Sample.env_seeded Sample.model 10 Hexe Hfile Hdata Hmagic).
Defined.

Lemma constructed_vector_witness :
  construct Sample.env_seeded Sample.model 10
  = (inr Sample.seeded,
     [asked_env; IsFile Sample.exe; IsFile Sample.model; Open Sample.model;
      Read 4 GGUF_MAGIC; Close Sample.model])
  /\ build_command Sample.repr_float Sample.seeded Sample.hello
     = map lit [ "/opt/llama.cpp/main"; "-p"; "Hello";
                 "-m"; "models/7b.gguf"; "-n"; "50";
                 "--repeat-penalty"; "1.1"; "--presence-penalty"; "0.0";
                 "--frequency-penalty"; "0.0"; "--top-k"; "40";
                 "--top-p"; "0.95"; "--temp"; "0.8"; "-s"; "1234" ]%string.
Proof.
  assert (Hok : construct Sample.env_seeded Sample.model 10
                = (inr Sample.seeded,
                   [asked_env; IsFile Sample.exe; IsFile Sample.model;
                    Open Sample.model; Read 4 GGUF_MAGIC;
                    Close Sample.model])) by reflexivity.
  split; [ exact Hok | ].
  destruct (constructed_vector Sample.repr_float Sample.env_seeded
                               Sample.model 10 Sample.hello Hok)
    as (exe & Hexe & Hvec).
  injection Hexe as <-. exact Hvec.
Defined.

Lemma constructed_escalates_witness :
  (construct Sample.env Sample.model 10
   = (inr Sample.fresh,
      [asked_env; IsFile Sample.exe; IsFile Sample.model; Open Sample.model;
       Read 4 GGUF_MAGIC; Close Sample.model])
   /\ Sample.fails (Sample.argv Sample.fresh)
      = Exited 1 (blit "Hel") Sample.failure_text
   /\ 1%Z <> 0%Z
   /\ decode_utf8 Sample.failure_text
      = Some (lit "error: unable to load model"))
  /\ fst (Sample.run Sample.fresh Sample.fails)
     = inl (CalledProcessError 1 (Sample.argv Sample.fresh) (blit "Hel")
                               Sample.failure_text).
Proof.
  assert (Hok : construct Sample.env Sample.model 10
                = (inr Sample.fresh,
                   [asked_env; IsFile Sample.exe; IsFile Sample.model;
                    Open Sample.model; Read 4 GGUF_MAGIC;
                    Close Sample.model])) by reflexivity.
  assert (Hans : Sample.fails (Sample.argv Sample.fresh)
                 = Exited 1 (blit "Hel") Sample.failure_text)
    by reflexivity.
  assert (Hrc : 1%Z <> 0%Z) by discriminate.
  assert (Hdec : decode_utf8 Sample.failure_text
                 = Some (lit "error: unable to load model")) by reflexivity.
  split; [ repeat split; assumption | ].
  exact (f_equal fst (constructed_instance_escalates
                        Sample.repr_float Sample.env Sample.model 10
                        Sample.fails Sample.hello Hok Hans Hrc Hdec)).
Defined.
